(** * ElasticsearchDocumentStore: a shallow embedding and its properties

    Source: [haystack/database/elasticsearch.py].

    The store talks to an Elasticsearch client and works on the JSON-like
    Python values the client hands back.  The embedding keeps that shape:

    - a [value] is a Python value as the JSON decoder produces it;
    - mappings that arrive from outside the store (the hits of a search
      response, their [_source] mappings) are mutable objects of an object
      store and are named by reference ([VRef]), because the code pops keys
      from them and hands the very same object back to its caller;
    - mappings the store builds itself (query bodies, metadata records) are
      written as immutable records ([VDict]): the client serialises a body as
      soon as it gets it and nothing mutates a metadata record after it has
      been built; lists are values too, the store never mutates a list it
      was given;
    - the client is a parameter: one transition function over an abstract
      world, which may raise;
    - exceptions are values of [exn]; a raise keeps the state reached so far,
      as in Python. *)

From Stdlib Require Import ZArith Floats String Ascii List Permutation Sorted Lia.
From stdpp Require Import gmap strings list.

Set Warnings "-register-all,-inexact-float".
Local Open Scope string_scope.
Local Open Scope list_scope.
Local Open Scope Z_scope.

(** ** Values *)

Definition loc := nat.

Inductive value : Type :=
| VNone
| VBool (b : bool)
| VInt (z : Z)
| VFloat (f : float)
| VStr (s : string)
| VList (l : list value)
| VDict (d : list (string * value))
| VRef (r : loc).

(** A Python dict keeps insertion order and has unique keys. *)
Abbreviation dict := (list (string * value)).
Abbreviation heap := (gmap loc (list (string * value))).

Inductive exn : Type :=
| KeyError (k : string)
| TypeError
| ValueError
| AttributeError
| RuntimeError (msg : string)
| Exception (msg : string)
| TransportError (status : Z).

Inductive res (A : Type) : Type :=
| Ok (a : A)
| Raise (e : exn).
Arguments Ok {A} a.
Arguments Raise {A} e.

(** ** Dict primitives *)

Fixpoint dict_get (k : string) (d : dict) : option value :=
  match d with
  | [] => None
  | (k', v) :: d' => if String.eqb k k' then Some v else dict_get k d'
  end.

(** [d[k] = v]: an existing key keeps its position. *)
Fixpoint dict_set (k : string) (v : value) (d : dict) : dict :=
  match d with
  | [] => [(k, v)]
  | (k', v') :: d' =>
      if String.eqb k k' then (k, v) :: d' else (k', v') :: dict_set k v d'
  end.

Fixpoint dict_del (k : string) (d : dict) : dict :=
  match d with
  | [] => []
  | (k', v') :: d' =>
      if String.eqb k k' then dict_del k d' else (k', v') :: dict_del k d'
  end.

(** A dict display [{k1: v1, k2: v2, ...}]: the items are stored left to
    right, a repeated key overwrites. *)
Definition dict_lit (items : list (string * value)) : dict :=
  fold_left (fun d kv => dict_set (fst kv) (snd kv) d) items [].

(** [d.update(other)] *)
Definition dict_update (d other : dict) : dict :=
  fold_left (fun d kv => dict_set (fst kv) (snd kv) d) other d.

(** The object a reference names; a location never written reads as the
    empty mapping. *)
Definition deref (h : heap) (r : loc) : dict := default [] (h !! r).

(** ** Python operations on values *)

(** [bool(v)] *)
Definition truthy (h : heap) (v : value) : bool :=
  match v with
  | VNone => false
  | VBool b => b
  | VInt z => negb (z =? 0)
  | VFloat f => negb (PrimFloat.eqb f 0%float)
  | VStr s => negb (String.eqb s "")
  | VList l => match l with [] => false | _ => true end
  | VDict d => match d with [] => false | _ => true end
  | VRef r => match deref h r with [] => false | _ => true end
  end.

(** [obj[k]] for a string subscript [k]. *)
Definition py_getitem (h : heap) (obj : value) (k : string) : res value :=
  match obj with
  | VDict d => match dict_get k d with Some v => Ok v | None => Raise (KeyError k) end
  | VRef r => match dict_get k (deref h r) with Some v => Ok v | None => Raise (KeyError k) end
  | _ => Raise TypeError
  end.

(** [obj.pop(k)]: only the mutable dict objects of the store have it. *)
Definition py_pop (h : heap) (obj : value) (k : string) : res value * heap :=
  match obj with
  | VRef r =>
      match dict_get k (deref h r) with
      | Some v => (Ok v, <[r := dict_del k (deref h r)]> h)
      | None => (Raise (KeyError k), h)
      end
  | VList _ => (Raise TypeError, h)
  | _ => (Raise AttributeError, h)
  end.

(** [d.items()] *)
Definition py_items (h : heap) (obj : value) : res (list (string * value)) :=
  match obj with
  | VDict d => Ok d
  | VRef r => Ok (deref h r)
  | _ => Raise AttributeError
  end.

Fixpoint chars (s : string) : list value :=
  match s with
  | EmptyString => []
  | String c s' => VStr (String c EmptyString) :: chars s'
  end.

(** [iter(v)]: what a [for] loop walks over. *)
Definition py_iter (h : heap) (v : value) : res (list value) :=
  match v with
  | VList l => Ok l
  | VStr s => Ok (chars s)
  | VDict d => Ok (map (fun kv => VStr (fst kv)) d)
  | VRef r => Ok (map (fun kv => VStr (fst kv)) (deref h r))
  | _ => Raise TypeError
  end.

(** [v - 1] with the int literal [1]. *)
Definition py_sub1 (v : value) : res value :=
  match v with
  | VFloat f => Ok (VFloat (f - 1)%float)
  | VInt z => Ok (VInt (z - 1))
  | VBool b => Ok (VInt (Z.b2z b - 1))
  | _ => Raise TypeError
  end.

(** [l[:k]] *)
Definition py_slice_to {A} (l : list A) (k : Z) : list A :=
  if 0 <=? k then firstn (Z.to_nat k) l
  else firstn (Z.to_nat (Z.of_nat (length l) + k)) l.

(** ** Ordering of sort keys

    Python orders ints and floats among themselves (exactly, without
    converting the int) and strings among themselves; [None], mappings and
    mixed pairs are unorderable and make [<] raise [TypeError].  Sequences as
    keys are not modelled and count as unorderable. *)

Definition SF_cmp_Z (f : spec_float) (z : Z) : option comparison :=
  match f with
  | S754_nan => None
  | S754_infinity s => Some (if s then Lt else Gt)
  | S754_zero _ => Some (0 ?= z)
  | S754_finite s m e =>
      let v := if s then Z.neg m else Z.pos m in
      Some (if 0 <=? e then (v * 2 ^ e ?= z) else (v ?= z * 2 ^ (- e)))
  end.

Inductive key_class : Type := KNum | KStr | KOther.

Definition class_of (v : value) : key_class :=
  match v with
  | VBool _ | VInt _ | VFloat _ => KNum
  | VStr _ => KStr
  | _ => KOther
  end.

Definition py_ltb (a b : value) : bool :=
  let int_of v := match v with VBool b => Some (Z.b2z b) | VInt z => Some z | _ => None end in
  match a, b with
  | VFloat x, VFloat y => PrimFloat.ltb x y
  | VStr s, VStr t => String.ltb s t
  | VFloat x, _ =>
      match int_of b with
      | Some z => match SF_cmp_Z (Prim2SF x) z with Some Lt => true | _ => false end
      | None => false
      end
  | _, VFloat y =>
      match int_of a with
      | Some z => match SF_cmp_Z (Prim2SF y) z with Some Gt => true | _ => false end
      | None => false
      end
  | _, _ =>
      match int_of a, int_of b with
      | Some x, Some y => x <? y
      | _, _ => false
      end
  end.

Definition same_class (c : key_class) (v : value) : bool :=
  match c, class_of v with
  | KNum, KNum | KStr, KStr => true
  | _, _ => false
  end.

(** Whether sorting these keys runs without a [TypeError]: no comparison is
    made on fewer than two keys; otherwise every key takes part in one. *)
Definition sortable (keys : list value) : bool :=
  match keys with
  | [] | [_] => true
  | k :: ks => forallb (same_class (class_of k)) (k :: ks)
  end.

Section Sort.
Context {A : Type} (key : A -> value).

Fixpoint insert_desc (x : A) (l : list A) : list A :=
  match l with
  | [] => [x]
  | y :: ys => if py_ltb (key x) (key y) then y :: insert_desc x ys else x :: l
  end.

(** [l.sort(key=key, reverse=True)]: descending and stable, that is,
    elements with equal keys keep the order they had. *)
Definition py_sort_desc (l : list A) : res (list A) :=
  if sortable (map key l) then Ok (foldr insert_desc [] l) else Raise TypeError.
End Sort.

(** ** Strings: [s.split('.')] and ['.'.join(parts)] *)

Definition dot : ascii := "."%char.

Fixpoint split_dot_aux (cur : string) (s : string) : list string :=
  match s with
  | EmptyString => [cur]
  | String c s' =>
      if Ascii.eqb c dot then cur :: split_dot_aux "" s'
      else split_dot_aux (String.append cur (String c "")) s'
  end.

Definition split_dot (s : string) : list string := split_dot_aux "" s.

Fixpoint join_dot (parts : list string) : string :=
  match parts with
  | [] => ""
  | [p] => p
  | p :: ps => String.append p (String dot (join_dot ps))
  end.

(** ** The client, the log and the state

    Every request to the backend goes through [client]: it sees the object
    store (a search response is made of fresh objects there) and its own
    world, and either returns a value or raises.  The state records each
    request with its outcome, and the log records. *)

Inductive call : Type :=
| IndicesCreate (index : string) (ignore : Z) (body : value)
| Search (index : string) (body : value) (size : option Z)
| Index (index : string) (body : value).

Inductive level : Type := DEBUG | ERROR.

Record log_record : Type := LogRecord {
  log_level : level;
  log_text : string;
  log_exn : option exn;
  log_arg : value
}.

Record state (W : Type) : Type := State {
  st_heap : heap;
  st_world : W;
  st_calls : list (call * res value);
  st_log : list log_record
}.
Arguments State {W} _ _ _ _.
Arguments st_heap {W} _.
Arguments st_world {W} _.
Arguments st_calls {W} _.
Arguments st_log {W} _.

Definition client_t (W : Type) : Type := call -> heap -> W -> res value * heap * W.

(** State and exceptions: a computation returns or raises, and leaves a
    state either way. *)
Definition M (W A : Type) : Type := state W -> res A * state W.

#[export] Instance M_ret {W} : MRet (M W) := fun A a s => (Ok a, s).
#[export] Instance M_bind {W} : MBind (M W) := fun A B f m s =>
  match m s with
  | (Ok a, s') => f a s'
  | (Raise e, s') => (Raise e, s')
  end.

Definition raise {W A} (e : exn) : M W A := fun s => (Raise e, s).

Definition lift {W A} (r : res A) : M W A := fun s => (r, s).

(** [try: m except Exception as e: handler e]; every [exn] is an
    [Exception]. *)
Definition try_except {W A} (m : M W A) (handler : exn -> M W A) : M W A := fun s =>
  match m s with
  | (Ok a, s') => (Ok a, s')
  | (Raise e, s') => handler e s'
  end.

Definition get_heap {W} : M W heap := fun s => (Ok (st_heap s), s).

Definition getitem {W} (obj : value) (k : string) : M W value :=
  fun s => (py_getitem (st_heap s) obj k, s).

Definition pop {W} (obj : value) (k : string) : M W value := fun s =>
  let '(r, h) := py_pop (st_heap s) obj k in
  (r, State h (st_world s) (st_calls s) (st_log s)).

Definition items {W} (obj : value) : M W (list (string * value)) :=
  fun s => (py_items (st_heap s) obj, s).

Definition iter {W} (v : value) : M W (list value) :=
  fun s => (py_iter (st_heap s) v, s).

Definition truth {W} (v : value) : M W bool :=
  fun s => (Ok (truthy (st_heap s) v), s).

Definition client_call {W} (client : client_t W) (c : call) : M W value := fun s =>
  let '(r, h, w) := client c (st_heap s) (st_world s) in
  (r, State h w (st_calls s ++ [(c, r)]) (st_log s)).

Definition logger {W} (lvl : level) (text : string) (e : option exn) (arg : value)
  : M W unit := fun s =>
  (Ok tt, State (st_heap s) (st_world s) (st_calls s) (st_log s ++ [LogRecord lvl text e arg])).

(** [for x in l: body x] *)
Fixpoint for_each {W A} (l : list A) (body : A -> M W unit) : M W unit :=
  match l with
  | [] => mret tt
  | x :: xs => _ ← body x; for_each xs body
  end.

(** A [for] loop that threads the local variables [acc] it assigns. *)
Fixpoint for_fold {W A B} (l : list A) (acc : B) (body : B -> A -> M W B) : M W B :=
  match l with
  | [] => mret acc
  | x :: xs => acc' ← body acc x; for_fold xs acc' body
  end.

(** ** The store *)

Record store : Type := Store {
  index : string;
  search_fields : value;
  tag_fields : value;
  embedding_field : option string;
  excluded_meta_data : value;
  is_nested : bool;
  nested_path : string;
  text_field : string;
  name_field : string;
  doc_id_field : string
}.

(** [if embedding_field:] on an optional string. *)
Definition truthy_field (f : option string) : bool :=
  match f with
  | Some s => negb (String.eqb s "")
  | None => false
  end.

(** [d[k][k'] = v] on a record under construction. *)
Definition dict_set_in (k k' : string) (v : value) (d : dict) : dict :=
  match dict_get k d with
  | Some (VDict inner) => dict_set k (VDict (dict_set k' v inner)) d
  | _ => d
  end.

Definition nested_path_error : string :=
  "text_field, doc_id_field, name_field should have the same nested path".

(** Lines 34-46 of [__init__]: the index mapping. *)
Definition init_custom_mapping (h : heap) (text_field name_field doc_id_field : string)
    (embedding_field : option string) (embedding_dim custom_mapping : value) : value :=
  if negb (truthy h custom_mapping) then
    let text := VDict (dict_lit [("type", VStr "text")]) in
    let properties :=
      dict_lit [(name_field, text); (text_field, text); (doc_id_field, text)] in
    let properties :=
      match embedding_field with
      | Some f =>
          if truthy_field embedding_field
          then dict_set f (VDict (dict_lit [("type", VStr "dense_vector");
                                             ("dims", embedding_dim)])) properties
          else properties
      | None => properties
      end in
    VDict (dict_lit [("mappings", VDict (dict_lit [("properties", VDict properties)]))])
  else custom_mapping.

Section Store.
Context {W : Type} (client : client_t W).

(** [__init__]; the connection arguments only reach the client
    constructor and are left out. [parts[-1]] cannot fail: [split] never
    returns an empty list. *)
Definition init (index : string) (search_fields : value)
    (text_field name_field doc_id_field : string) (tag_fields : value)
    (embedding_field : option string)
    (embedding_dim custom_mapping excluded_meta_data : value) : M W store :=
  h ← get_heap;
  let custom_mapping :=
    init_custom_mapping h text_field name_field doc_id_field
      embedding_field embedding_dim custom_mapping in
  _ ← client_call client (IndicesCreate index 400 custom_mapping);
  let search_fields :=
    match search_fields with
    | VStr s => VList [VStr s]
    | _ => search_fields
    end in
  let text_field_parts := split_dot text_field in
  let name_field_parts := split_dot name_field in
  let doc_id_field_parts := split_dot doc_id_field in
  if ((1 <? length text_field_parts)%nat || (1 <? length doc_id_field_parts)%nat
      || (1 <? length name_field_parts)%nat)
     && negb (bool_decide (py_slice_to text_field_parts (-1)
                           = py_slice_to doc_id_field_parts (-1))
              && bool_decide (py_slice_to doc_id_field_parts (-1)
                              = py_slice_to name_field_parts (-1)))
  then raise (Exception nested_path_error)
  else
    mret (Store index search_fields tag_fields embedding_field excluded_meta_data
            (1 <? length text_field_parts)%nat
            (if (1 <? length text_field_parts)%nat
             then join_dot (py_slice_to text_field_parts (-1)) else "")
            (List.last text_field_parts "")
            (List.last name_field_parts "")
            (List.last doc_id_field_parts "")).

Definition get_document_by_id (self : store) (id : value) : M W value :=
  let query :=
    VDict (dict_lit [("filter", VDict (dict_lit [("term", VDict (dict_lit [("_id", id)]))]))]) in
  response ← client_call client (Search (index self) query None);
  hits ← getitem response "hits";
  result ← getitem hits "hits";
  found ← truth result;
  if (found : bool) then
    i ← getitem result (doc_id_field self);
    n ← getitem result (name_field self);
    t ← getitem result (text_field self);
    mret (VDict (dict_lit [("id", i); ("name", n); ("text", t)]))
  else mret VNone.

Definition get_document_ids_by_tags (self : store) (tags : value) : M W (list value) :=
  tag_items ← items tags;
  let term_queries :=
    map (fun kv => VDict (dict_lit [("terms", VDict (dict_lit [(fst kv, snd kv)]))]))
        tag_items in
  let query :=
    VDict (dict_lit [("query",
      VDict (dict_lit [("bool", VDict (dict_lit [("must", VList term_queries)]))]))]) in
  _ ← logger DEBUG "Tag filter query: " None query;
  response ← client_call client (Search (index self) query (Some 10000));
  hits ← getitem response "hits";
  result ← getitem hits "hits";
  result ← iter result;
  for_fold result [] (fun doc_ids hit =>
    i ← getitem hit "_id";
    mret (doc_ids ++ [i])).

Definition write_documents (self : store) (documents : list value) : M W unit :=
  for_each documents (fun d =>
    try_except
      (_ ← client_call client (Index (index self) d); mret tt)
      (fun e => logger ERROR "Failed to index doc" (Some e) d)).
End Store.

(** ** Query bodies *)

Definition terms_filter (candidate_doc_ids : value) : value :=
  VList [VDict (dict_lit [("terms", VDict (dict_lit [("_id", candidate_doc_ids)]))])].

(** [prepare_query]; its second parameter, the query text, is called
    [search_fields] in the source. *)
Definition prepare_query (h : heap) (self : store) (query_text : value) (top_k : Z)
    (candidate_doc_ids : value) : value :=
  let query :=
    dict_lit [("bool", VDict (dict_lit [("should",
      VList [VDict (dict_lit [("multi_match",
        VDict (dict_lit [("query", query_text);
                         ("type", VStr "most_fields");
                         ("fields", search_fields self)]))])])]))] in
  let query :=
    if truthy h candidate_doc_ids
    then dict_set_in "bool" "filter" (terms_filter candidate_doc_ids) query
    else query in
  let query :=
    if is_nested self
    then dict_lit [("nested", VDict (dict_lit [("path", VStr (nested_path self));
                                               ("query", VDict query);
                                               ("inner_hits", VDict [])]))]
    else query in
  let body := dict_lit [("size", VInt top_k); ("query", VDict query)] in
  let body :=
    if truthy h (excluded_meta_data self)
    then dict_set "_source" (VDict (dict_lit [("excludes", excluded_meta_data self)])) body
    else body in
  VDict body.

Definition script_source : string :=
  "cosineSimilarity(params.query_vector,doc['question_emb']) + 1.0".

Definition match_all : value := VDict (dict_lit [("match_all", VDict [])]).

(** Lines 231-254 of [query_by_embedding]: the request body. *)
Definition query_by_embedding_body (h : heap) (self : store) (query_emb : value)
    (top_k : Z) (candidate_doc_ids : value) : value :=
  let base :=
    if truthy h candidate_doc_ids
    then VDict (dict_lit [("bool", VDict (dict_lit [("should", VList [match_all]);
                                                    ("filter", terms_filter candidate_doc_ids)]))])
    else match_all in
  let body :=
    dict_lit [("size", VInt top_k);
              ("query", VDict (dict_lit [("script_score",
                 VDict (dict_lit [("query", base);
                                  ("script", VDict (dict_lit [
                                     ("source", VStr script_source);
                                     ("params", VDict (dict_lit [("query_vector", query_emb)]))]))]))]))] in
  let body :=
    if truthy h (excluded_meta_data self)
    then dict_set "_source" (VDict (dict_lit [("excludes", excluded_meta_data self)])) body
    else body in
  VDict body.

(** ** Result projection *)

Definition embedding_field_error : string :=
  "Please specify arg `embedding_field` in ElasticsearchDocumentStore()".

Section Projection.
Context {W : Type} (client : client_t W).

(** Body of the loop of [extract_paragraphs]. *)
Definition extract_paragraphs_hit (self : store) (hit : value) : M W (value * value) :=
  source ← getitem hit "_source";
  text ← pop source (text_field self);
  paragraph_id ← getitem hit "_id";
  source ← getitem hit "_source";
  document_id ← getitem source (doc_id_field self);
  source ← getitem hit "_source";
  document_name ← getitem source (name_field self);
  score ← getitem hit "_score";
  source ← getitem hit "_source";
  mret (text, VDict (dict_lit [("paragraph_id", paragraph_id);
                               ("document_id", document_id);
                               ("document_name", document_name);
                               ("score", score);
                               ("custom_meta", source)])).

Definition extract_paragraphs (self : store) (result : value)
  : M W (list value * list value) :=
  hits ← iter result;
  for_fold hits ([], []) (fun acc hit =>
    pm ← extract_paragraphs_hit self hit;
    mret (acc.1 ++ [pm.1], acc.2 ++ [pm.2])).

(** Body of the inner loop of [extract_paragraphs_nested]. *)
Definition extract_paragraphs_nested_hit (self : store) (hit inner_hit : value)
  : M W (value * value) :=
  source ← getitem inner_hit "_source";
  text ← getitem source (text_field self);
  paragraph_id ← getitem hit "_id";
  source ← getitem inner_hit "_source";
  document_id ← getitem source (doc_id_field self);
  source ← getitem inner_hit "_source";
  document_name ← getitem source (name_field self);
  score ← getitem inner_hit "_score";
  source ← getitem inner_hit "_source";
  mret (text, VDict (dict_lit [("paragraph_id", paragraph_id);
                               ("document_id", document_id);
                               ("document_name", document_name);
                               ("score", score);
                               ("custom_meta", source)])).

(** The two nested loops: one (text, metadata) pair per inner hit. *)
Definition nested_pairs (self : store) (result : value) : M W (list value * list value) :=
  hits ← iter result;
  for_fold hits ([], []) (fun acc hit =>
    inner_hits ← getitem hit "inner_hits";
    at_path ← getitem inner_hits (nested_path self);
    inner ← getitem at_path "hits";
    inner ← getitem inner "hits";
    inner ← iter inner;
    for_fold inner acc (fun acc inner_hit =>
      pm ← extract_paragraphs_nested_hit self hit inner_hit;
      mret (acc.1 ++ [pm.1], acc.2 ++ [pm.2]))).

(** The last assignment, [paragraphs, meta_data = zip] of the unpacked
    [zipped]: the zip of no tuples yields nothing, and unpacking nothing
    into two names raises. *)
Definition unzip_pairs (zipped : list (value * value))
  : res (list value * list value) :=
  match zipped with
  | [] => Raise ValueError
  | _ => Ok (map fst zipped, map snd zipped)
  end.

(** [zipped.sort(key=lambda x: x[1]["score"], reverse=True)]: the keys
    are computed first, then the list is sorted on them. *)
Definition sort_by_score (zipped : list (value * value)) : M W (list (value * value)) :=
  keys ← for_fold zipped [] (fun keys x =>
    k ← getitem x.2 "score";
    mret (keys ++ [k]));
  sorted ← lift (py_sort_desc fst (combine keys zipped));
  mret (map snd sorted).

Definition extract_paragraphs_nested (self : store) (result : value) (top_k : Z)
  : M W (list value * list value) :=
  pm ← nested_pairs self result;
  let zipped := combine pm.1 pm.2 in
  zipped ← sort_by_score zipped;
  let zipped := py_slice_to zipped top_k in
  lift (unzip_pairs zipped).

Definition query (self : store) (query_text : value) (top_k : Z)
    (candidate_doc_ids : value) : M W (list value * list value) :=
  h ← get_heap;
  let body := prepare_query h self query_text top_k candidate_doc_ids in
  _ ← logger DEBUG "Retriever query: " None body;
  response ← client_call client (Search (index self) body None);
  hits ← getitem response "hits";
  result ← getitem hits "hits";
  if is_nested self
  then extract_paragraphs_nested self result top_k
  else extract_paragraphs self result.

(** Body of the loop of [query_by_embedding]. *)
Definition query_by_embedding_hit (self : store) (hit : value) : M W (value * value) :=
  source ← getitem hit "_source";
  text ← pop source (text_field self);
  paragraph_id ← getitem hit "_id";
  source ← getitem hit "_source";
  document_id ← pop source (doc_id_field self);
  source ← getitem hit "_source";
  document_name ← pop source (name_field self);
  score ← getitem hit "_score";
  score ← lift (py_sub1 score);
  let cur_meta := dict_lit [("paragraph_id", paragraph_id);
                            ("document_id", document_id);
                            ("document_name", document_name);
                            ("score", score)] in
  source ← getitem hit "_source";
  rest ← items source;
  mret (text, VDict (dict_update cur_meta rest)).

Definition query_by_embedding (self : store) (query_emb : value) (top_k : Z)
    (candidate_doc_ids : value) : M W (list value * list value) :=
  if negb (truthy_field (embedding_field self))
  then raise (RuntimeError embedding_field_error)
  else
    h ← get_heap;
    let body := query_by_embedding_body h self query_emb top_k candidate_doc_ids in
    _ ← logger DEBUG "Retriever query: " None body;
    response ← client_call client (Search (index self) body None);
    hits ← getitem response "hits";
    result ← getitem hits "hits";
    hits ← iter result;
    for_fold hits ([], []) (fun acc hit =>
      pm ← query_by_embedding_hit self hit;
      mret (acc.1 ++ [pm.1], acc.2 ++ [pm.2])).
End Projection.

(** ** Reading results and building test responses *)

(** [v[k1][k2]...] *)
Fixpoint py_path (h : heap) (v : value) (ks : list string) : res value :=
  match ks with
  | [] => Ok v
  | k :: ks' =>
      match py_getitem h v k with
      | Ok v' => py_path h v' ks'
      | Raise e => Raise e
      end
  end.

(** Decoding a JSON document into the object store: every mapping of the
    document becomes a fresh object. *)
Fixpoint load (v : value) (h : heap) : value * heap :=
  match v with
  | VList l =>
      let '(l', h') :=
        (fix load_list (l : list value) (h : heap) : list value * heap :=
           match l with
           | [] => ([], h)
           | x :: xs =>
               let '(x', h1) := load x h in
               let '(xs', h2) := load_list xs h1 in
               (x' :: xs', h2)
           end) l h in
      (VList l', h')
  | VDict d =>
      let '(d', h') :=
        (fix load_items (d : list (string * value)) (h : heap)
           : list (string * value) * heap :=
           match d with
           | [] => ([], h)
           | (k, x) :: xs =>
               let '(x', h1) := load x h in
               let '(xs', h2) := load_items xs h1 in
               ((k, x') :: xs', h2)
           end) d h in
      let r := fresh (dom h') in
      (VRef r, <[r := d']> h')
  | _ => (v, h)
  end.

(** A client that answers every request with the same document. *)
Definition stub_client (response : value) : client_t unit := fun c h w =>
  let '(v, h') := load response h in (Ok v, h', w).

(** A client whose index refuses every document that is not a mapping. *)
Definition strict_client : client_t unit := fun c h w =>
  match c with
  | Index _ (VDict _) | Index _ (VRef _) => (Ok VNone, h, w)
  | Index _ _ => (Raise (TransportError 400), h, w)
  | _ => (Ok VNone, h, w)
  end.

Definition search_response (hits : list value) : value :=
  VDict [("hits", VDict [("hits", VList hits)])].

Definition flat_hit (id : string) (score : float) (source : list (string * value)) : value :=
  VDict [("_id", VStr id); ("_score", VFloat score); ("_source", VDict source)].

Definition inner_hit (score : float) (source : list (string * value)) : value :=
  VDict [("_score", VFloat score); ("_source", VDict source)].

Definition nested_hit (id path : string) (inner : list value) : value :=
  VDict [("_id", VStr id); ("_score", VFloat 1);
         ("inner_hits", VDict [(path, VDict [("hits", VDict [("hits", VList inner)])])])].

Definition document (text name id : string) : list (string * value) :=
  [("text", VStr text); ("name", VStr name); ("document_id", VStr id)].

Definition empty_state : state unit := State ∅ tt [] [].

Definition flat_store (embedding_field : option string) : store :=
  Store "document" (VList [VStr "text"]) VNone embedding_field VNone
        false "" "text" "name" "document_id".

Definition nested_store : store :=
  Store "document" (VList [VStr "text"]) VNone None VNone
        true "paragraphs" "text" "name" "document_id".

(** ** Vocabulary of the properties *)

(** [not_below key a b]: the key of [a] is not less than the key of [b]. *)
Definition not_below {A : Type} (key : A -> value) (a b : A) : Prop :=
  py_ltb (key a) (key b) = false.

(** The script that would score by the field called [field]. *)
Definition script_for (field : string) : string :=
  String.append "cosineSimilarity(params.query_vector,doc['"
    (String.append field "']) + 1.0").

(** Where the bool clause sits in the body of a text query. *)
Definition bool_path (self : store) : list string :=
  if is_nested self then ["query"; "nested"; "query"; "bool"] else ["query"; "bool"].

Definition multi_match (self : store) (query_text : value) : value :=
  VDict [("multi_match", VDict [("query", query_text);
                                ("type", VStr "most_fields");
                                ("fields", search_fields self)])].

(** The error records a run of index requests leaves in the log. *)
Definition index_failures (attempts : list (value * res value)) : list log_record :=
  flat_map (fun a =>
    match a.2 with
    | Raise e => [LogRecord ERROR "Failed to index doc" (Some e) a.1]
    | Ok _ => []
    end) attempts.

(** The answers of the client to one index request per document, in order,
    each request made in the store and world the previous one left, whatever
    the previous answers were; with the store and world left at the end. *)
Fixpoint index_outcomes {W : Type} (client : client_t W) (idx : string)
    (documents : list value) (h : heap) (w : W) : list (res value) * heap * W :=
  match documents with
  | [] => ([], h, w)
  | d :: ds =>
      let '(r, h1, w1) := client (Index idx d) h w in
      let '(rs, h2, w2) := index_outcomes client idx ds h1 w1 in
      (r :: rs, h2, w2)
  end.

(** Whether a request raised. *)
Definition failed (r : res value) : bool :=
  match r with
  | Raise _ => true
  | Ok _ => false
  end.

Definition empty_must_query : value :=
  VDict [("query", VDict [("bool", VDict [("must", VList [])])])].

(** Whether a field path contains the separator. *)
Fixpoint has_dot (s : string) : bool :=
  match s with
  | EmptyString => false
  | String c s' => Ascii.eqb c dot || has_dot s'
  end.

(** All segments of a path except the last, and the last one. *)
Definition path_prefix (s : string) : list string := removelast (split_dot s).
Definition path_leaf (s : string) : string := List.last (split_dot s) "".

(** [drops P h h']: store [h'] is [h] with some keys, all in [P], dropped
    from some objects; nothing is added and no value changes. *)
Definition drops (P : string -> Prop) (h h' : heap) : Prop :=
  forall (r : loc) (k : string),
    dict_get k (deref h' r) = dict_get k (deref h r)
    \/ (P k /\ dict_get k (deref h' r) = None).

(** The keys the embedding loop pops, and what is left of a source mapping
    once they are gone. *)
Definition popped (self : store) (k : string) : Prop :=
  k = text_field self \/ k = doc_id_field self \/ k = name_field self.

Definition remaining (self : store) (d : dict) : dict :=
  dict_del (name_field self) (dict_del (doc_id_field self) (dict_del (text_field self) d)).

(** [steps body hits pms s s']: the loop body ran on each of [hits] in turn,
    from state [s] to state [s'], and returned [pms]. *)
Inductive steps {W : Type} (body : value -> M W (value * value))
  : list value -> list (value * value) -> state W -> state W -> Prop :=
| steps_nil (s : state W) : steps body [] [] s s
| steps_cons (hit : value) (hits : list value) (pm : value * value)
    (pms : list (value * value)) (s s1 s' : state W) :
    body hit s = (Ok pm, s1) ->
    steps body hits pms s1 s' ->
    steps body (hit :: hits) (pm :: pms) s s'.

Definition scored_response (source : list (string * value)) : value :=
  search_response [flat_hit "p1" 1.5 source].

(** A decoded document together with the store that holds it. *)
Definition loaded (v : value) : value * state unit :=
  let '(v', h) := load v ∅ in (v', State h tt [] []).

Definition one_hit : value * state unit :=
  loaded (VList [flat_hit "p1" 1.5 (document "some text" "doc" "d1")]).

(** A float that is not a NaN is ranked by a triple of integers (class,
    exponent, mantissa, the last two negated below zero), ordered
    lexicographically; [<] on such floats is [<] on their ranks. *)
Definition sf_rank (f : spec_float) : Z * Z * Z :=
  match f with
  | S754_zero _ | S754_nan => (0, 0, 0)
  | S754_infinity s => (if s then -2 else 2, 0, 0)
  | S754_finite s m e => if s then (-1, - e, Z.neg m) else (1, e, Z.pos m)
  end.

Definition rank_compare (a b : Z * Z * Z) : comparison :=
  match a.1.1 ?= b.1.1 with
  | Eq => match a.1.2 ?= b.1.2 with
          | Eq => a.2 ?= b.2
          | c => c
          end
  | c => c
  end.

Definition not_nan (f : float) : Prop := PrimFloat.is_nan f = false.

(** A sort key as the backend scores are: a float that is not a NaN. *)
Definition float_key (v : value) : Prop := exists f : float, v = VFloat f /\ not_nan f.

(** The score a projected pair carries in its metadata. *)
Definition score_of (pm : value * value) : value :=
  match pm.2 with
  | VDict d => default VNone (dict_get "score" d)
  | _ => VNone
  end.

(** [emits h self hit inner_hit pm]: [pm] is the (text, metadata) pair of
    the inner hit [inner_hit] of the outer hit [hit]: text, document id,
    document name and score are the inner hit's, the paragraph id is the
    outer hit's id. *)
Definition emits (h : heap) (self : store) (hit inner_hit : value) (pm : value * value)
  : Prop :=
  exists source paragraph_id document_id document_name score : value,
    py_getitem h inner_hit "_source" = Ok source
    /\ py_getitem h source (text_field self) = Ok pm.1
    /\ py_getitem h hit "_id" = Ok paragraph_id
    /\ py_getitem h source (doc_id_field self) = Ok document_id
    /\ py_getitem h source (name_field self) = Ok document_name
    /\ py_getitem h inner_hit "_score" = Ok score
    /\ pm.2 = VDict [("paragraph_id", paragraph_id); ("document_id", document_id);
                     ("document_name", document_name); ("score", score);
                     ("custom_meta", source)].

(** The pairs of all inner hits of one outer hit, in order. *)
Definition emits_all (h : heap) (self : store) (hit : value) (pms : list (value * value))
  : Prop :=
  exists inner : list value,
    py_path h hit ["inner_hits"; nested_path self; "hits"; "hits"] = Ok (VList inner)
    /\ Forall2 (emits h self hit) inner pms.

(** Outer hit H1 with inner hits scored 0.2 and 0.9, outer hit H2 with one
    inner hit scored 0.5. *)
Definition rerank_hits : value * state unit :=
  loaded (VList [nested_hit "H1" "paragraphs"
                   [inner_hit 0.2 (document "low" "doc1" "d1");
                    inner_hit 0.9 (document "high" "doc1" "d1")];
                 nested_hit "H2" "paragraphs" [inner_hit 0.5 (document "mid" "doc2" "d2")]]).

Definition metadata (paragraph_id document_id document_name : string) (score : float)
    (source : loc) : value :=
  VDict [("paragraph_id", VStr paragraph_id); ("document_id", VStr document_id);
         ("document_name", VStr document_name); ("score", VFloat score);
         ("custom_meta", VRef source)].

Definition rerank_groups : list (list (value * value)) :=
  [[(VStr "low", metadata "H1" "d1" "doc1" 0.2 0%nat);
    (VStr "high", metadata "H1" "d1" "doc1" 0.9 2%nat)];
   [(VStr "mid", metadata "H2" "d2" "doc2" 0.5 8%nat)]].

(** ** Further operations of the store *)

(** [client.count()] and the [scan] helper are parameters of their own.  A
    scan is a generator: it yields hits and may raise after the last one it
    yielded. *)
Definition count_t (W : Type) : Type := heap -> W -> res value * heap * W.

Definition scan_t (W : Type) : Type :=
  string -> value -> heap -> W -> (list value * option exn) * heap * W.

Definition match_all_query : value :=
  VDict (dict_lit [("query", VDict (dict_lit [("match_all", VDict [])]))]).

Section Further.
Context {W : Type} (client : client_t W) (count : count_t W) (scan : scan_t W).

Definition get_document_by_name (self : store) (name : value) : M W value :=
  let query :=
    VDict (dict_lit [("filter",
      VDict (dict_lit [("term", VDict (dict_lit [(name_field self, name)]))]))]) in
  response ← client_call client (Search (index self) query None);
  hits ← getitem response "hits";
  result ← getitem hits "hits";
  found ← truth result;
  if (found : bool) then
    i ← getitem result (doc_id_field self);
    n ← getitem result (name_field self);
    t ← getitem result (text_field self);
    mret (VDict (dict_lit [("id", i); ("name", n); ("text", t)]))
  else mret VNone.

Definition count_call : M W value := fun s =>
  let '(r, h, w) := count (st_heap s) (st_world s) in
  (r, State h w (st_calls s) (st_log s)).

Definition get_document_count (self : store) : M W value :=
  result ← count_call;
  getitem result "count".

(** Body of the loop of [get_all_documents]. *)
Definition get_all_documents_hit (self : store) (hit : value) : M W value :=
  source ← getitem hit "_source";
  i ← getitem source (doc_id_field self);
  source ← getitem hit "_source";
  n ← getitem source (name_field self);
  source ← getitem hit "_source";
  t ← getitem source (text_field self);
  mret (VDict (dict_lit [("id", i); ("name", n); ("text", t)])).

(** The loop runs over the hits the scan yields; if the scan then raises,
    the loop is left with that exception. *)
Definition get_all_documents (self : store) : M W (list value) := fun s =>
  let '(hits, failure, h, w) := scan (index self) match_all_query (st_heap s) (st_world s) in
  (documents ← for_fold hits [] (fun documents hit =>
     d ← get_all_documents_hit self hit;
     mret (documents ++ [d]));
   match failure with
   | Some e => raise e
   | None => mret documents
   end) (State h w (st_calls s) (st_log s)).
End Further.

(** A scan that yields the decoded hits of a fixed list. *)
Definition stub_scan (hits : list value) : scan_t unit := fun idx query h w =>
  match load (VList hits) h with
  | (VList l, h') => (l, None, h', w)
  | (_, h') => ([], None, h', w)
  end.


(** [pure m]: [m] never changes the state.  [quiet m]: [m] sends no
    request, writes no log record and leaves the world alone; it may change
    objects of the store. *)
Definition pure {W A} (m : M W A) : Prop := forall s : state W, (m s).2 = s.

Definition quiet {W A} (m : M W A) : Prop :=
  forall s : state W,
    st_world (m s).2 = st_world s /\ st_calls (m s).2 = st_calls s
    /\ st_log (m s).2 = st_log s.

(** The document record [get_all_documents] makes of a hit. *)
Definition document_of (h : heap) (self : store) (hit doc : value) : Prop :=
  exists source i n t : value,
    py_getitem h hit "_source" = Ok source
    /\ py_getitem h source (doc_id_field self) = Ok i
    /\ py_getitem h source (name_field self) = Ok n
    /\ py_getitem h source (text_field self) = Ok t
    /\ doc = VDict [("id", i); ("name", n); ("text", t)].

(** What the flat projection makes of a hit, read in store [h]: the text of
    its source and a metadata record with the hit's id and score, the
    source's docId and name, and the source object itself. *)
Definition projects (h : heap) (self : store) (hit : value) (tm : value * value) : Prop :=
  exists (r : loc) (pid did dn sc : value),
    py_getitem h hit "_source" = Ok (VRef r)
    /\ dict_get (text_field self) (deref h r) = Some tm.1
    /\ py_getitem h hit "_id" = Ok pid
    /\ dict_get (doc_id_field self) (deref h r) = Some did
    /\ dict_get (name_field self) (deref h r) = Some dn
    /\ py_getitem h hit "_score" = Ok sc
    /\ tm.2 = VDict [("paragraph_id", pid); ("document_id", did); ("document_name", dn);
                     ("score", sc); ("custom_meta", VRef r)].

(** Two decoded hits of which the second has no text field. *)
Definition two_hits : value * state unit :=
  loaded (VList [flat_hit "p1" 1.5 (document "some text" "doc" "d1");
                 flat_hit "p2" 1 [("name", VStr "doc"); ("document_id", VStr "d2")]]).

(** The same store without the nested path. *)
Definition unnested (self : store) : store :=
  Store (index self) (search_fields self) (tag_fields self) (embedding_field self)
        (excluded_meta_data self) false "" (text_field self) (name_field self)
        (doc_id_field self).

(** The request [get_document_ids_by_tags] sends for the tag items [l]. *)
Definition tags_query (l : list (string * value)) : value :=
  VDict [("query", VDict [("bool", VDict [("must",
    VList (map (fun kv => VDict [("terms", VDict [(kv.1, kv.2)])]) l))])])].

Definition text_mapping : value := VDict [("type", VStr "text")].

Definition vector_mapping (dims : value) : value :=
  VDict [("type", VStr "dense_vector"); ("dims", dims)].

(** [a.b] *)
Definition dotted (a b : string) : string := String.append a (String dot b).

(** A decoded hit whose source has a field of its own. *)
Definition tagged_hit : value * state unit :=
  loaded (VList [flat_hit "p1" 1.5 (document "some text" "doc" "d1" ++ [("lang", VStr "en")])]).

(** * Properties *)

(** ** Monad equations *)

Ltac run_m :=
  unfold mbind, M_bind, mret, M_ret, getitem, pop, items, iter, truth, lift, raise,
    get_heap, logger in *; cbn in *.

Lemma bind_ok {W A B} (m : M W A) (f : A -> M W B) s a s' :
  m s = (Ok a, s') -> (m ≫= f) s = f a s'.
Proof. intros H. unfold mbind, M_bind. now rewrite H. Qed.

Lemma bind_raise {W A B} (m : M W A) (f : A -> M W B) s e s' :
  m s = (Raise e, s') -> (m ≫= f) s = (Raise e, s').
Proof. intros H. unfold mbind, M_bind. now rewrite H. Qed.

Lemma bind_inv {W A B} (m : M W A) (f : A -> M W B) s b s' :
  (m ≫= f) s = (Ok b, s') -> exists a s1, m s = (Ok a, s1) /\ f a s1 = (Ok b, s').
Proof.
  unfold mbind, M_bind. destruct (m s) as [[a|e] s1]; [eauto | discriminate].
Qed.

Lemma getitem_inv {W} obj k (s : state W) v s' :
  getitem obj k s = (Ok v, s') -> py_getitem (st_heap s) obj k = Ok v /\ s' = s.
Proof. unfold getitem. intros [= -> ->]. auto. Qed.

(** ** Empty results *)

(** C1: on a result with zero hits the nested projection does not return two
    empty lists: the final unpacking raises [ValueError], whatever [top_k];
    the flat projection returns the pair of empty lists. *)
Theorem extract_paragraphs_nested_no_hits :
  forall (W : Type) (self : store) (top_k : Z) (s : state W),
    extract_paragraphs_nested self (VList []) top_k s = (Raise ValueError, s)
    /\ extract_paragraphs self (VList []) s = (Ok ([], []), s).
Proof.
  intros W self top_k s. split; [|reflexivity].
  unfold extract_paragraphs_nested, nested_pairs, sort_by_score, py_slice_to.
  run_m. destruct (0 <=? top_k); cbn; now rewrite firstn_nil.
Qed.

(** The same through [query]: a nested store whose search matches nothing. *)
Example query_nested_no_hits :
  fst (query (stub_client (search_response [])) nested_store (VStr "q") 10 VNone empty_state)
  = Raise ValueError.
Proof. vm_compute. reflexivity. Qed.

Example query_flat_no_hits :
  fst (query (stub_client (search_response [])) (flat_store None) (VStr "q") 10 VNone empty_state)
  = Ok ([], []).
Proof. vm_compute. reflexivity. Qed.

(** ** The embedding query body *)

(** C2: the scoring script of the embedding query names the field
    [question_emb] for every store, whatever [embedding_field] is; for a
    store configured with the field [emb] it is not the script over [emb]. *)
Theorem query_by_embedding_script_field :
  (forall (h : heap) (self : store) (query_emb : value) (top_k : Z) (ids : value),
      py_path h (query_by_embedding_body h self query_emb top_k ids)
        ["query"; "script_score"; "script"; "source"]
      = Ok (VStr (script_for "question_emb")))
  /\ py_path ∅ (query_by_embedding_body ∅ (flat_store (Some "emb")) (VList [VFloat 1]) 10 VNone)
       ["query"; "script_score"; "script"; "source"]
     <> Ok (VStr (script_for "emb")).
Proof.
  split; [|vm_compute; discriminate].
  intros h self query_emb top_k ids. unfold query_by_embedding_body.
  destruct (truthy h ids), (truthy h (excluded_meta_data self)); reflexivity.
Qed.

(** The request really sent carries that body. *)
Example query_by_embedding_request :
  map fst (st_calls (snd (query_by_embedding (stub_client (search_response []))
                            (flat_store (Some "emb")) (VList [VFloat 1]) 10 VNone empty_state)))
  = [Search "document"
       (VDict [("size", VInt 10);
               ("query", VDict [("script_score", VDict [
                  ("query", VDict [("match_all", VDict [])]);
                  ("script", VDict [("source", VStr (script_for "question_emb"));
                                    ("params", VDict [("query_vector", VList [VFloat 1])])])])])])
       None].
Proof. vm_compute. reflexivity. Qed.

(** ** Lookup by id *)

(** C3: [get_document_by_id] returns [None] when the search has no hit; when
    it has one or more, subscripting the hit list with a field name raises
    [TypeError] and no document record is returned. *)
Theorem get_document_by_id_result :
  forall (W : Type) (client : client_t W) (self : store) (id : value) (s : state W)
         (response : value) (h' : heap) (w' : W) (hits : list value),
    client (Search (index self) (VDict [("filter", VDict [("term", VDict [("_id", id)])])]) None)
           (st_heap s) (st_world s) = (Ok response, h', w') ->
    py_path h' response ["hits"; "hits"] = Ok (VList hits) ->
    fst (get_document_by_id client self id s)
    = match hits with
      | [] => Ok VNone
      | _ :: _ => Raise TypeError
      end.
Proof.
  intros W client self id s response h' w' hits Hcall Hpath.
  unfold get_document_by_id, client_call. run_m. rewrite Hcall. cbn.
  destruct (py_getitem h' response "hits") as [v|e]; [|discriminate].
  destruct (py_getitem h' v "hits") as [v'|e]; [|discriminate].
  injection Hpath as ->. destruct hits; reflexivity.
Qed.

Lemma get_document_by_id_result_witness :
  fst (get_document_by_id
         (stub_client (search_response [flat_hit "1" 1 (document "some text" "doc" "1")]))
         (flat_store None) (VStr "1") empty_state)
  = Raise TypeError.
Proof.
  pose proof (get_document_by_id_result unit
    (stub_client (search_response [flat_hit "1" 1 (document "some text" "doc" "1")]))
    (flat_store None) (VStr "1") empty_state) as H.
  specialize (H _ _ _ [VRef 1%nat] eq_refl eq_refl). exact H.
Defined.

Example get_document_by_id_no_hit :
  fst (get_document_by_id (stub_client (search_response [])) (flat_store None) (VStr "1")
         empty_state)
  = Ok VNone.
Proof. vm_compute. reflexivity. Qed.

(** ** The text query body *)

(** C6: without candidate ids ([None] or the empty list) the bool clause of
    the text query has the single key [should], hence no filter at all; with
    a non-empty list of ids it has [should] as before and, under [filter],
    exactly one terms clause on [_id] that lists those ids. *)
Theorem prepare_query_filter :
  forall (h : heap) (self : store) (query_text : value) (top_k : Z),
    py_path h (prepare_query h self query_text top_k VNone) (bool_path self)
    = Ok (VDict [("should", VList [multi_match self query_text])])
    /\ py_path h (prepare_query h self query_text top_k (VList [])) (bool_path self)
       = Ok (VDict [("should", VList [multi_match self query_text])])
    /\ forall (id : value) (ids : list value),
         py_path h (prepare_query h self query_text top_k (VList (id :: ids))) (bool_path self)
         = Ok (VDict [("should", VList [multi_match self query_text]);
                      ("filter", VList [VDict [("terms", VDict [("_id", VList (id :: ids))])]])]).
Proof.
  intros h self query_text top_k. unfold prepare_query, bool_path.
  repeat split; intros;
    destruct (is_nested self), (truthy h (excluded_meta_data self)); reflexivity.
Qed.

Example prepare_query_two_ids :
  prepare_query ∅ (flat_store None) (VStr "why") 10 (VList [VStr "a"; VStr "b"])
  = VDict [("size", VInt 10);
           ("query", VDict [("bool", VDict [
              ("should", VList [VDict [("multi_match",
                 VDict [("query", VStr "why"); ("type", VStr "most_fields");
                        ("fields", VList [VStr "text"])])]]);
              ("filter", VList [VDict [("terms",
                 VDict [("_id", VList [VStr "a"; VStr "b"])])]])])])].
Proof. reflexivity. Qed.

(** ** Writing documents *)

Lemma index_step {W} (client : client_t W) (idx : string) (d : value) (s : state W) :
  try_except (_ ← client_call client (Index idx d); mret tt)
             (fun e => logger ERROR "Failed to index doc" (Some e) d) s
  = let '(r, h, w) := client (Index idx d) (st_heap s) (st_world s) in
    (Ok tt, State h w (st_calls s ++ [(Index idx d, r)])
                  (st_log s ++ index_failures [(d, r)])).
Proof.
  unfold try_except, client_call. run_m.
  destruct (client (Index idx d) (st_heap s) (st_world s)) as [[[v|e] h] w]; cbn;
    now rewrite ?app_nil_r.
Qed.

Lemma index_outcomes_length {W} (client : client_t W) (idx : string)
    (documents : list value) (h : heap) (w : W) :
  length (index_outcomes client idx documents h w).1.1 = length documents.
Proof.
  revert h w. induction documents as [|d ds IH]; intros h w; cbn [index_outcomes];
    [reflexivity|].
  destruct (client (Index idx d) h w) as [[r h1] w1]. specialize (IH h1 w1).
  destruct (index_outcomes client idx ds h1 w1) as [[rs h2] w2]. cbn in *. lia.
Qed.

Lemma index_failures_logged (attempts : list (value * res value)) (d : value) (e : exn) :
  In (d, Raise e) attempts ->
  In (LogRecord ERROR "Failed to index doc" (Some e) d) (index_failures attempts).
Proof.
  intros Hin. unfold index_failures. apply in_flat_map.
  exists (d, Raise e). split; [exact Hin | now left].
Qed.

Lemma index_failures_count (documents : list value) (outcomes : list (res value)) :
  length outcomes = length documents ->
  length (index_failures (combine documents outcomes))
  = length (List.filter failed outcomes).
Proof.
  revert outcomes. induction documents as [|d ds IH]; intros [|r rs] Hlen;
    try discriminate; [reflexivity|].
  injection Hlen as Hlen. unfold index_failures in *.
  cbn [combine flat_map List.filter snd fst]. rewrite length_app, (IH rs Hlen).
  destruct r; reflexivity.
Qed.

Lemma write_documents_run {W} (client : client_t W) (self : store)
    (documents : list value) (s : state W) :
  write_documents client self documents s
  = let run := index_outcomes client (index self) documents (st_heap s) (st_world s) in
    (Ok tt, State run.1.2 run.2
              (st_calls s ++ combine (map (Index (index self)) documents) run.1.1)
              (st_log s ++ index_failures (combine documents run.1.1))).
Proof.
  unfold write_documents. revert s.
  induction documents as [|d ds IH]; intros s; cbn zeta.
  - cbn. rewrite !app_nil_r. now destruct s.
  - cbn [for_each index_outcomes].
    pose proof (index_step client (index self) d s) as Hstep.
    destruct (client (Index (index self) d) (st_heap s) (st_world s)) as [[r h1] w1].
    rewrite (bind_ok _ _ _ _ _ Hstep), IH. cbn zeta.
    cbn [st_heap st_world st_calls st_log].
    destruct (index_outcomes client (index self) ds h1 w1) as [[rs h2] w2].
    cbn [fst snd map combine]. rewrite <- !app_assoc.
    unfold index_failures. cbn [flat_map]. now rewrite app_nil_r.
Qed.

(** C8: for every client and every list of documents, [write_documents]
    returns normally; it has sent one index request per document, in order,
    each answered by the client in the store and world the previous request
    left, so a failed request does not keep the next one from being made;
    the trace holds these requests with the client's answers; and the log
    has gained exactly one error record per failed request, naming its
    exception and its document. *)
Theorem write_documents_attempts_all :
  forall (W : Type) (client : client_t W) (self : store) (documents : list value)
         (s : state W),
    let run := index_outcomes client (index self) documents (st_heap s) (st_world s) in
    let outcomes := run.1.1 in
    let s' := (write_documents client self documents s).2 in
    (write_documents client self documents s).1 = Ok tt
    /\ st_heap s' = run.1.2 /\ st_world s' = run.2
    /\ length outcomes = length documents
    /\ st_calls s' = st_calls s ++ combine (map (Index (index self)) documents) outcomes
    /\ st_log s' = st_log s ++ index_failures (combine documents outcomes)
    /\ (forall (d : value) (e : exn),
          In (d, Raise e) (combine documents outcomes) ->
          In (LogRecord ERROR "Failed to index doc" (Some e) d) (st_log s'))
    /\ length (st_log s')
       = (length (st_log s) + length (List.filter failed outcomes))%nat.
Proof.
  intros W client self documents s run outcomes s'. subst s'.
  rewrite write_documents_run. fold run. fold outcomes. cbn [fst snd st_heap st_world
    st_calls st_log].
  pose proof (index_outcomes_length client (index self) documents (st_heap s) (st_world s))
    as Hlen. fold run in Hlen. fold outcomes in Hlen.
  repeat split; try assumption.
  - intros d e Hin. apply in_or_app. right. now apply index_failures_logged.
  - now rewrite length_app, index_failures_count.
Qed.

(** Three documents of which the second is refused: three requests, one
    logged failure, normal return. *)
Example write_documents_one_failure :
  let run := write_documents strict_client (flat_store None)
               [VDict (document "a" "A" "1"); VStr "not a document";
                VDict (document "b" "B" "2")] empty_state in
  fst run = Ok tt
  /\ map fst (st_calls (snd run))
     = [Index "document" (VDict (document "a" "A" "1"));
        Index "document" (VStr "not a document");
        Index "document" (VDict (document "b" "B" "2"))]
  /\ st_log (snd run)
     = [LogRecord ERROR "Failed to index doc" (Some (TransportError 400))
          (VStr "not a document")].
Proof. vm_compute. repeat split. Qed.

(** ** Ids by tags *)

Lemma collect_ids {W} (h : heap) (hits ids : list value) :
  Forall2 (fun hit i => py_getitem h hit "_id" = Ok i) hits ids ->
  forall (acc : list value) (s : state W), st_heap s = h ->
    for_fold hits acc (fun doc_ids hit => i ← getitem hit "_id"; mret (doc_ids ++ [i])) s
    = (Ok (acc ++ ids), s).
Proof.
  induction 1 as [|hit i hits ids Hi _ IH]; intros acc s Hs; cbn.
  - now rewrite app_nil_r.
  - unfold mbind at 1, M_bind at 1. unfold mbind at 1, M_bind at 1, getitem.
    rewrite Hs, Hi. cbn. rewrite (IH _ s Hs), <- app_assoc. reflexivity.
Qed.

(** C10: with an empty tag mapping [get_document_ids_by_tags] sends a bool
    query whose [must] list is empty, asking for up to 10000 hits, and
    returns the id of every hit the backend answers with: as many ids as
    hits, not an empty list. *)
Theorem get_document_ids_by_tags_no_tags :
  forall (W : Type) (client : client_t W) (self : store) (tags : value) (s : state W)
         (response : value) (h' : heap) (w' : W) (hits ids : list value),
    py_items (st_heap s) tags = Ok [] ->
    client (Search (index self) empty_must_query (Some 10000)) (st_heap s) (st_world s)
    = (Ok response, h', w') ->
    py_path h' response ["hits"; "hits"] = Ok (VList hits) ->
    Forall2 (fun hit i => py_getitem h' hit "_id" = Ok i) hits ids ->
    exists s' : state W,
      get_document_ids_by_tags client self tags s = (Ok ids, s')
      /\ length ids = length hits
      /\ st_calls s'
         = st_calls s ++ [(Search (index self) empty_must_query (Some 10000), Ok response)].
Proof.
  intros W client self tags s response h' w' hits ids Htags Hcall Hpath Hids.
  unfold get_document_ids_by_tags, client_call.
  unfold mbind at 1, M_bind at 1, items. rewrite Htags. cbn [map].
  run_m. fold empty_must_query. rewrite Hcall. cbn.
  destruct (py_getitem h' response "hits") as [v|e]; [|discriminate].
  destruct (py_getitem h' v "hits") as [v'|e]; [|discriminate].
  injection Hpath as ->. cbn.
  pose proof (collect_ids (W := W) h' hits ids Hids []
    (State h' w' (st_calls s ++ [(Search (index self) empty_must_query (Some 10000), Ok response)])
       (st_log s ++ [LogRecord DEBUG "Tag filter query: " None empty_must_query])) eq_refl)
    as Hfold.
  unfold mbind, M_bind, mret, M_ret, getitem in Hfold. cbn in Hfold.
  eexists. split; [exact Hfold|]. split; [|reflexivity].
  symmetry. eapply Forall2_length; eauto.
Qed.

Lemma get_document_ids_by_tags_no_tags_witness :
  fst (get_document_ids_by_tags
         (stub_client (search_response [flat_hit "p1" 1 (document "a" "A" "1");
                                        flat_hit "p2" 1 (document "b" "B" "2")]))
         (flat_store None) (VDict []) empty_state)
  = Ok [VStr "p1"; VStr "p2"].
Proof.
  destruct (get_document_ids_by_tags_no_tags unit
    (stub_client (search_response [flat_hit "p1" 1 (document "a" "A" "1");
                                   flat_hit "p2" 1 (document "b" "B" "2")]))
    (flat_store None) (VDict []) empty_state _ _ _ [VRef 1%nat; VRef 3%nat]
    [VStr "p1"; VStr "p2"] eq_refl eq_refl eq_refl) as (s' & Hrun & _).
  - repeat constructor.
  - now rewrite Hrun.
Defined.

(** ** Field paths *)

Lemma append_cons (c : ascii) (a b : string) :
  String.append (String c a) b = String c (String.append a b).
Proof. reflexivity. Qed.

Lemma append_assoc (a b c : string) :
  String.append (String.append a b) c = String.append a (String.append b c).
Proof. induction a as [|x a IH]; [reflexivity|]. now rewrite !append_cons, IH. Qed.

Lemma append_empty_r (a : string) : String.append a "" = a.
Proof. induction a as [|x a IH]; [reflexivity|]. now rewrite append_cons, IH. Qed.

Lemma split_dot_aux_nonempty (s cur : string) : split_dot_aux cur s <> [].
Proof.
  revert cur. induction s as [|c s IH]; intros cur; cbn [split_dot_aux]; [discriminate|].
  destruct (Ascii.eqb c dot); [discriminate | apply IH].
Qed.

Lemma split_dot_aux_no_dot (s cur : string) :
  has_dot s = false -> split_dot_aux cur s = [String.append cur s].
Proof.
  revert cur. induction s as [|c s IH]; intros cur H; cbn [split_dot_aux has_dot] in *.
  - now rewrite append_empty_r.
  - apply orb_false_elim in H as [Hc Hs]. rewrite Hc.
    rewrite (IH _ Hs), append_assoc. reflexivity.
Qed.

Lemma split_dot_aux_length (s cur : string) :
  (1 <? length (split_dot_aux cur s))%nat = has_dot s.
Proof.
  revert cur. induction s as [|c s IH]; intros cur; cbn [split_dot_aux has_dot];
    [reflexivity|].
  destruct (Ascii.eqb c dot); cbn [orb].
  - pose proof (split_dot_aux_nonempty s "") as Hne.
    destruct (split_dot_aux "" s); [contradiction | reflexivity].
  - apply IH.
Qed.

(** Joining the segments gives the path back. *)
Lemma join_split_dot_aux (s cur : string) :
  join_dot (split_dot_aux cur s) = String.append cur s.
Proof.
  revert cur. induction s as [|c s IH]; intros cur; cbn [split_dot_aux].
  - cbn. now rewrite append_empty_r.
  - destruct (Ascii.eqb_spec c dot) as [->|Hc].
    + pose proof (split_dot_aux_nonempty s "") as Hne. specialize (IH "").
      destruct (split_dot_aux "" s) as [|p ps]; [contradiction|].
      change (join_dot (cur :: p :: ps))
        with (String.append cur (String dot (join_dot (p :: ps)))).
      now rewrite IH.
    + rewrite IH, append_assoc. reflexivity.
Qed.

Lemma join_split_dot (s : string) : join_dot (split_dot s) = s.
Proof. apply join_split_dot_aux. Qed.

Lemma py_slice_to_minus_one {A} (l : list A) : py_slice_to l (-1) = removelast l.
Proof.
  unfold py_slice_to. cbn. rewrite removelast_firstn_len. f_equal. lia.
Qed.

Lemma removelast_nil_iff {A} (l : list A) :
  removelast l = [] <-> (1 <? length l)%nat = false.
Proof.
  destruct l as [|a [|b l]]; cbn; split; intros; try reflexivity; discriminate.
Qed.

(** C7: when the index creation succeeds, [__init__] maps the three field
    paths as follows.  If none contains a separator, the store is not nested,
    its nested path is empty and the fields are the paths themselves.  If
    one does, then either the three paths have the same prefix (all segments
    but the last), and the store is nested, its nested path is that prefix
    joined by the separator and the fields are the last segments; or they do
    not, and the construction raises the configuration error. *)
Theorem init_field_mapping :
  forall (W : Type) (client : client_t W) (idx : string) (fields : value)
         (text_path name_path doc_id_path : string) (tags : value) (emb : option string)
         (dim mapping excluded : value) (s : state W) (v : value) (h' : heap) (w' : W),
    client (IndicesCreate idx 400
              (init_custom_mapping (st_heap s) text_path name_path doc_id_path emb dim mapping))
           (st_heap s) (st_world s) = (Ok v, h', w') ->
    let outcome :=
      fst (init client idx fields text_path name_path doc_id_path tags emb dim mapping
             excluded s) in
    let same_prefix :=
      path_prefix text_path = path_prefix doc_id_path
      /\ path_prefix doc_id_path = path_prefix name_path in
    (has_dot text_path = false -> has_dot name_path = false -> has_dot doc_id_path = false ->
     exists self : store,
       outcome = Ok self /\ is_nested self = false /\ nested_path self = ""
       /\ text_field self = text_path /\ name_field self = name_path
       /\ doc_id_field self = doc_id_path)
    /\ (has_dot text_path || has_dot name_path || has_dot doc_id_path = true ->
        (same_prefix ->
         exists self : store,
           outcome = Ok self /\ is_nested self = true
           /\ nested_path self = join_dot (path_prefix text_path)
           /\ text_field self = path_leaf text_path
           /\ name_field self = path_leaf name_path
           /\ doc_id_field self = path_leaf doc_id_path)
        /\ (~ same_prefix -> outcome = Raise (Exception nested_path_error))).
Proof.
  intros W client idx fields text_path name_path doc_id_path tags emb dim mapping excluded
    s v h' w' Hcall outcome same_prefix.
  assert (Hinit : outcome =
    if (has_dot text_path || has_dot doc_id_path || has_dot name_path)
       && negb (bool_decide (path_prefix text_path = path_prefix doc_id_path)
                && bool_decide (path_prefix doc_id_path = path_prefix name_path))
    then Raise (Exception nested_path_error)
    else Ok (Store idx match fields with VStr f => VList [VStr f] | _ => fields end
               tags emb excluded (has_dot text_path)
               (if has_dot text_path then join_dot (path_prefix text_path) else "")
               (path_leaf text_path) (path_leaf name_path) (path_leaf doc_id_path))).
  { subst outcome.
    unfold init, client_call, mbind, M_bind, mret, M_ret, get_heap, raise.
    cbv beta iota zeta. rewrite Hcall. cbv beta iota.
    unfold path_prefix, path_leaf, split_dot.
    rewrite !split_dot_aux_length, !py_slice_to_minus_one.
    match goal with |- context [if ?c then _ else _] => destruct c end; reflexivity. }
  split.
  - intros Ht Hn Hd. rewrite Hinit, Ht, Hn, Hd. cbn. eexists. split; [reflexivity|].
    unfold path_leaf, split_dot. cbn.
    rewrite !split_dot_aux_no_dot by assumption. cbn. auto.
  - intros Hany. split.
    + intros [H1 H2]. rewrite Hinit.
      rewrite (bool_decide_eq_true_2 _ H1), (bool_decide_eq_true_2 _ H2), andb_false_r.
      eexists. split; [reflexivity|]. cbn.
      assert (Ht : has_dot text_path = true).
      { destruct (has_dot text_path) eqn:Ht; [reflexivity|]. exfalso.
        assert (Hp : path_prefix text_path = []).
        { apply removelast_nil_iff. unfold split_dot. now rewrite split_dot_aux_length. }
        assert (Hd : has_dot doc_id_path = false).
        { rewrite <- (split_dot_aux_length doc_id_path "").
          apply removelast_nil_iff. fold (split_dot doc_id_path).
          fold (path_prefix doc_id_path). congruence. }
        assert (Hn : has_dot name_path = false).
        { rewrite <- (split_dot_aux_length name_path "").
          apply removelast_nil_iff. fold (split_dot name_path).
          fold (path_prefix name_path). congruence. }
        rewrite Hd, Hn in Hany. discriminate. }
      rewrite Ht. auto.
    + intros Hdiff. rewrite Hinit.
      replace (has_dot text_path || has_dot doc_id_path || has_dot name_path) with true
        by (destruct (has_dot text_path), (has_dot name_path), (has_dot doc_id_path);
            cbn in *; congruence).
      destruct (bool_decide_reflect (path_prefix text_path = path_prefix doc_id_path));
        [|reflexivity].
      destruct (bool_decide_reflect (path_prefix doc_id_path = path_prefix name_path));
        [|reflexivity].
      exfalso. apply Hdiff. split; assumption.
Qed.

Lemma init_field_mapping_witness :
  exists self : store,
    fst (init (stub_client VNone) "document" (VStr "text") "paragraphs.text"
           "paragraphs.name" "paragraphs.document_id" VNone None VNone VNone VNone
           empty_state) = Ok self
    /\ is_nested self = true /\ nested_path self = "paragraphs"
    /\ text_field self = "text" /\ name_field self = "name"
    /\ doc_id_field self = "document_id".
Proof.
  destruct (init_field_mapping unit (stub_client VNone) "document" (VStr "text")
              "paragraphs.text" "paragraphs.name" "paragraphs.document_id" VNone None
              VNone VNone VNone empty_state _ _ _ eq_refl) as [_ Hnested].
  destruct (Hnested eq_refl) as [Hsame _].
  destruct (Hsame (conj eq_refl eq_refl)) as (self & Hrun & Hn & Hp & Ht & Hna & Hd).
  exists self. repeat split; assumption.
Defined.

Example init_flat_paths :
  fst (init (stub_client VNone) "document" (VStr "text") "text" "name" "document_id"
         VNone None VNone VNone VNone empty_state)
  = Ok (flat_store None).
Proof. vm_compute. reflexivity. Qed.

Example init_mismatched_paths :
  fst (init (stub_client VNone) "document" (VStr "text") "paragraphs.text" "name"
         "paragraphs.document_id" VNone None VNone VNone VNone empty_state)
  = Raise (Exception nested_path_error).
Proof. vm_compute. reflexivity. Qed.

(** ** Dicts and the object store *)

Lemma dict_get_del (k k' : string) (d : dict) :
  dict_get k (dict_del k' d) = if String.eqb k k' then None else dict_get k d.
Proof.
  induction d as [|[k0 v0] d IH]; cbn [dict_del dict_get].
  - now destruct (String.eqb k k').
  - destruct (String.eqb_spec k' k0) as [->|Hne]; cbn [dict_get].
    + rewrite IH. destruct (String.eqb_spec k k0); reflexivity.
    + rewrite IH. destruct (String.eqb_spec k k0) as [->|]; [|reflexivity].
      destruct (String.eqb_spec k0 k'); [congruence | reflexivity].
Qed.

Lemma dict_get_del_same (k : string) (d : dict) : dict_get k (dict_del k d) = None.
Proof. now rewrite dict_get_del, String.eqb_refl. Qed.

Lemma dict_get_del_ok (k k' : string) (d : dict) (v : value) :
  dict_get k (dict_del k' d) = Some v -> dict_get k d = Some v.
Proof. rewrite dict_get_del. now destruct (String.eqb k k'). Qed.

Lemma dict_get_del_none (k k' : string) (d : dict) :
  dict_get k d = None -> dict_get k (dict_del k' d) = None.
Proof. rewrite dict_get_del. now destruct (String.eqb k k'). Qed.

Lemma dict_get_set (k k' : string) (v : value) (d : dict) :
  dict_get k (dict_set k' v d) = if String.eqb k k' then Some v else dict_get k d.
Proof.
  induction d as [|[k0 v0] d IH]; cbn [dict_set dict_get]; [reflexivity|].
  destruct (String.eqb_spec k' k0) as [->|Hne]; cbn [dict_get].
  - destruct (String.eqb k k0); reflexivity.
  - rewrite IH. destruct (String.eqb_spec k k0) as [->|]; [|reflexivity].
    destruct (String.eqb_spec k0 k'); [congruence | reflexivity].
Qed.

(** [update] leaves alone the keys its argument does not have. *)
Lemma dict_get_update_none (k : string) (other d : dict) :
  dict_get k other = None -> dict_get k (dict_update d other) = dict_get k d.
Proof.
  unfold dict_update. revert d.
  induction other as [|[k0 v0] other IH]; intros d H; cbn [fold_left fst snd]; [reflexivity|].
  cbn [dict_get] in H. destruct (String.eqb k k0) eqn:E; [discriminate|].
  now rewrite (IH _ H), dict_get_set, E.
Qed.

Lemma deref_insert (h : heap) (r : loc) (d : dict) : deref (<[r := d]> h) r = d.
Proof. unfold deref. now rewrite lookup_insert_eq. Qed.

Lemma deref_insert_ne (h : heap) (r r' : loc) (d : dict) :
  r <> r' -> deref (<[r := d]> h) r' = deref h r'.
Proof. intros H. unfold deref. now rewrite lookup_insert_ne. Qed.

(** Dropping a key from an object creates no entry and changes none. *)
Lemma getitem_del_ok (h : heap) (r : loc) (kd : string) (obj : value) (k : string)
    (v : value) :
  py_getitem (<[r := dict_del kd (deref h r)]> h) obj k = Ok v -> py_getitem h obj k = Ok v.
Proof.
  destruct obj as [| | | | | |d|r0]; cbn [py_getitem]; try discriminate; [tauto|].
  destruct (decide (r = r0)) as [->|Hne].
  - rewrite deref_insert.
    destruct (dict_get k (dict_del kd (deref h r0))) as [v0|] eqn:E; [|discriminate].
    intros [= ->]. now rewrite (dict_get_del_ok _ _ _ _ E).
  - now rewrite deref_insert_ne.
Qed.

Lemma pop_inv {W} (obj : value) (k : string) (s : state W) (v : value) (s' : state W) :
  pop obj k s = (Ok v, s') ->
  exists r : loc,
    obj = VRef r
    /\ dict_get k (deref (st_heap s) r) = Some v
    /\ s' = State (<[r := dict_del k (deref (st_heap s) r)]> (st_heap s))
                  (st_world s) (st_calls s) (st_log s).
Proof.
  unfold pop. destruct obj as [| | | | | |d|r]; cbn [py_pop]; try discriminate.
  destruct (dict_get k (deref (st_heap s) r)) as [v0|] eqn:E; [|discriminate].
  intros [= <- <-]. exists r. auto.
Qed.

Lemma pop_missing {W} (r : loc) (k : string) (s : state W) :
  dict_get k (deref (st_heap s) r) = None -> pop (VRef r) k s = (Raise (KeyError k), s).
Proof. unfold pop. cbn [py_pop]. intros ->. now destruct s. Qed.

Lemma items_inv {W} (obj : value) (s : state W) (l : list (string * value)) (s' : state W) :
  items obj s = (Ok l, s') -> py_items (st_heap s) obj = Ok l /\ s' = s.
Proof. unfold items. intros [= -> ->]. auto. Qed.

Lemma lift_inv {W A} (r : res A) (s : state W) (a : A) (s' : state W) :
  lift r s = (Ok a, s') -> r = Ok a /\ s' = s.
Proof. unfold lift. intros [= -> ->]. auto. Qed.

Lemma ret_inv {W A} (a b : A) (s s' : state W) :
  (mret a : M W A) s = (Ok b, s') -> a = b /\ s' = s.
Proof. unfold mret, M_ret. intros [= -> ->]. auto. Qed.

(** ** How the object store evolves under projection *)

Lemma drops_refl (P : string -> Prop) (h : heap) : drops P h h.
Proof. intros r k. now left. Qed.

Lemma drops_trans (P : string -> Prop) (h1 h2 h3 : heap) :
  drops P h1 h2 -> drops P h2 h3 -> drops P h1 h3.
Proof.
  intros H12 H23 r k.
  destruct (H23 r k) as [E23|[HP E23]]; [|now right].
  rewrite E23. apply H12.
Qed.

Lemma drops_pop (P : string -> Prop) (h : heap) (r : loc) (kd : string) :
  P kd -> drops P h (<[r := dict_del kd (deref h r)]> h).
Proof.
  intros HP r' k. destruct (decide (r = r')) as [<-|Hne].
  - rewrite deref_insert, dict_get_del.
    destruct (String.eqb_spec k kd) as [->|]; [now right | now left].
  - rewrite deref_insert_ne by assumption. now left.
Qed.

Lemma drops_getitem_ok (P : string -> Prop) (h h' : heap) (obj : value) (k : string)
    (v : value) :
  drops P h h' -> py_getitem h' obj k = Ok v -> py_getitem h obj k = Ok v.
Proof.
  intros Hd. destruct obj as [| | | | | |d|r]; cbn [py_getitem]; try discriminate; [tauto|].
  destruct (Hd r k) as [->|[_ ->]]; [tauto | discriminate].
Qed.

Lemma drops_getitem_cases (P : string -> Prop) (h h' : heap) (obj : value) (k : string)
    (v : value) :
  drops P h h' -> py_getitem h obj k = Ok v ->
  py_getitem h' obj k = Ok v \/ (P k /\ py_getitem h' obj k = Raise (KeyError k)).
Proof.
  intros Hd. destruct obj as [| | | | | |d|r]; cbn [py_getitem]; try discriminate; [tauto|].
  destruct (Hd r k) as [->|[HP ->]]; [tauto | intros _; now right].
Qed.

Lemma drops_none (P : string -> Prop) (h h' : heap) (r : loc) (k : string) :
  drops P h h' -> dict_get k (deref h r) = None -> dict_get k (deref h' r) = None.
Proof. intros Hd Hk. destruct (Hd r k) as [->|[_ ->]]; [assumption | reflexivity]. Qed.

Lemma drops_weaken (P Q : string -> Prop) (h h' : heap) :
  (forall k, P k -> Q k) -> drops P h h' -> drops Q h h'.
Proof. intros HPQ Hd r k. destruct (Hd r k) as [E|[HP E]]; [now left | right; auto]. Qed.

(** ** Projection of one hit *)

(** What a successful pass of the flat loop body has done. *)
Lemma extract_paragraphs_hit_inv {W} (self : store) (hit : value) (s : state W)
    (t m : value) (s' : state W) :
  extract_paragraphs_hit self hit s = (Ok (t, m), s') ->
  exists (r : loc) (pid did dn sc : value),
    py_getitem (st_heap s) hit "_source" = Ok (VRef r)
    /\ dict_get (text_field self) (deref (st_heap s) r) = Some t
    /\ s' = State (<[r := dict_del (text_field self) (deref (st_heap s) r)]> (st_heap s))
                  (st_world s) (st_calls s) (st_log s)
    /\ py_getitem (st_heap s') hit "_source" = Ok (VRef r)
    /\ py_getitem (st_heap s') hit "_id" = Ok pid
    /\ py_getitem (st_heap s') (VRef r) (doc_id_field self) = Ok did
    /\ py_getitem (st_heap s') (VRef r) (name_field self) = Ok dn
    /\ py_getitem (st_heap s') hit "_score" = Ok sc
    /\ m = VDict [("paragraph_id", pid); ("document_id", did); ("document_name", dn);
                  ("score", sc); ("custom_meta", VRef r)].
Proof.
  unfold extract_paragraphs_hit. intros H.
  apply bind_inv in H as (src & s1 & H1 & H). apply getitem_inv in H1 as [H1 ->].
  apply bind_inv in H as (t' & s1 & H2 & H). apply pop_inv in H2 as (r & -> & Ht & ->).
  apply bind_inv in H as (pid & s2 & H3 & H). apply getitem_inv in H3 as [H3 ->].
  apply bind_inv in H as (src1 & s2 & H4 & H). apply getitem_inv in H4 as [H4 ->].
  apply bind_inv in H as (did & s2 & H5 & H). apply getitem_inv in H5 as [H5 ->].
  apply bind_inv in H as (src2 & s2 & H6 & H). apply getitem_inv in H6 as [H6 ->].
  apply bind_inv in H as (dn & s2 & H7 & H). apply getitem_inv in H7 as [H7 ->].
  apply bind_inv in H as (sc & s2 & H8 & H). apply getitem_inv in H8 as [H8 ->].
  apply bind_inv in H as (src3 & s2 & H9 & H). apply getitem_inv in H9 as [H9 ->].
  apply ret_inv in H as [[= <- <-] ->]. cbn [st_heap] in *.
  assert (src1 = VRef r) as -> by (apply getitem_del_ok in H4; congruence).
  assert (src2 = VRef r) as -> by (apply getitem_del_ok in H6; congruence).
  assert (src3 = VRef r) as -> by (apply getitem_del_ok in H9; congruence).
  exists r, pid, did, dn, sc. repeat split; assumption.
Qed.

(** What a successful pass of the embedding loop body has done. *)
Lemma query_by_embedding_hit_inv {W} (self : store) (hit : value) (s : state W)
    (t m : value) (s' : state W) :
  query_by_embedding_hit self hit s = (Ok (t, m), s') ->
  exists (r : loc) (pid did dn sc sc1 : value),
    py_getitem (st_heap s) hit "_source" = Ok (VRef r)
    /\ dict_get (text_field self) (deref (st_heap s) r) = Some t
    /\ deref (st_heap s') r = remaining self (deref (st_heap s) r)
    /\ drops (popped self) (st_heap s) (st_heap s')
    /\ py_getitem (st_heap s') hit "_source" = Ok (VRef r)
    /\ py_getitem (st_heap s') hit "_score" = Ok sc
    /\ py_sub1 sc = Ok sc1
    /\ m = VDict (dict_update [("paragraph_id", pid); ("document_id", did);
                               ("document_name", dn); ("score", sc1)]
                              (deref (st_heap s') r)).
Proof.
  unfold query_by_embedding_hit. intros H.
  apply bind_inv in H as (src & s1 & H1 & H). apply getitem_inv in H1 as [H1 ->].
  apply bind_inv in H as (t' & s1 & H2 & H). apply pop_inv in H2 as (r & -> & Ht & ->).
  apply bind_inv in H as (pid & s2 & H3 & H). apply getitem_inv in H3 as [H3 ->].
  apply bind_inv in H as (src1 & s2 & H4 & H). apply getitem_inv in H4 as [H4 ->].
  apply bind_inv in H as (did & s2 & H5 & H). apply pop_inv in H5 as (r1 & -> & Hd & ->).
  apply bind_inv in H as (src2 & s2 & H6 & H). apply getitem_inv in H6 as [H6 ->].
  apply bind_inv in H as (dn & s2 & H7 & H). apply pop_inv in H7 as (r2 & -> & Hn & ->).
  apply bind_inv in H as (sc & s2 & H8 & H). apply getitem_inv in H8 as [H8 ->].
  apply bind_inv in H as (sc1 & s2 & H9 & H). apply lift_inv in H9 as [H9 ->].
  apply bind_inv in H as (src3 & s2 & H10 & H). apply getitem_inv in H10 as [H10 ->].
  apply bind_inv in H as (rest & s2 & H11 & H). apply items_inv in H11 as [H11 ->].
  apply ret_inv in H as [[= <- <-] ->]. cbn [st_heap] in *.
  assert (r1 = r) as -> by (apply getitem_del_ok in H4; congruence).
  assert (r2 = r) as ->.
  { apply getitem_del_ok, getitem_del_ok in H6. congruence. }
  assert (src3 = VRef r) as ->.
  { do 3 apply getitem_del_ok in H10. congruence. }
  cbn [py_items] in H11. injection H11 as <-.
  exists r, pid, did, dn, sc, sc1.
  repeat split; try assumption.
  - now rewrite !deref_insert.
  - eapply drops_trans; [eapply drops_trans|]; apply drops_pop; unfold popped; auto.
Qed.

(** ** Runs of a projection loop *)

Lemma for_fold_steps {W} (body : value -> M W (value * value)) (hits : list value) :
  forall (acc out : list value * list value) (s s' : state W),
    for_fold hits acc (fun acc hit =>
      pm ← body hit; mret (acc.1 ++ [pm.1], acc.2 ++ [pm.2])) s = (Ok out, s') ->
    exists pms : list (value * value),
      steps body hits pms s s'
      /\ out = (acc.1 ++ map fst pms, acc.2 ++ map snd pms).
Proof.
  induction hits as [|hit hits IH]; intros acc out s s' H; cbn [for_fold] in H.
  - apply ret_inv in H as [<- ->]. exists []. split; [constructor|].
    cbn. rewrite !app_nil_r. now destruct acc.
  - apply bind_inv in H as (acc' & s1 & Hbody & H).
    apply bind_inv in Hbody as (pm & s2 & Hpm & Hret).
    apply ret_inv in Hret as [<- ->].
    apply IH in H as (pms & Hsteps & ->). exists (pm :: pms). split.
    + econstructor; eassumption.
    + cbn [fst snd map]. now rewrite <- !app_assoc.
Qed.

(** If every pass of the body only drops keys in [P], so does the loop, and
    each pass sits between a store reached from the first and a store from
    which the last is reached. *)
Lemma steps_drops {W} (P : string -> Prop) (body : value -> M W (value * value)) :
  (forall hit s pm s', body hit s = (Ok pm, s') -> drops P (st_heap s) (st_heap s')) ->
  forall hits pms s s',
    steps body hits pms s s' ->
    drops P (st_heap s) (st_heap s')
    /\ Forall2 (fun hit pm => exists si si',
                  drops P (st_heap s) (st_heap si)
                  /\ body hit si = (Ok pm, si')
                  /\ drops P (st_heap si') (st_heap s')) hits pms.
Proof.
  intros Hbody hits pms s s' Hsteps.
  induction Hsteps as [s|hit hits pm pms s s1 s' Hrun Hsteps [IHd IHf]].
  - split; [apply drops_refl | constructor].
  - pose proof (Hbody _ _ _ _ Hrun) as Hd1. split.
    + eapply drops_trans; eassumption.
    + constructor.
      * exists s, s1. split; [apply drops_refl | split; assumption].
      * eapply Forall2_impl; [exact IHf|]. cbn.
        intros hit' pm' (si & si' & Hpre & Hrun' & Hpost).
        exists si, si'. split; [eapply drops_trans; eassumption | split; assumption].
Qed.

(** ** Scores of an embedding query *)

Lemma dict_get_remaining (self : store) (k : string) (d d0 : dict) :
  dict_get k d = dict_get k d0 \/ dict_get k d = None ->
  dict_get k (remaining self d0) = None ->
  dict_get k (remaining self d) = None.
Proof.
  unfold remaining. rewrite !dict_get_del.
  destruct (String.eqb k (name_field self)), (String.eqb k (doc_id_field self)),
    (String.eqb k (text_field self)); try reflexivity.
  intros [->| ->]; auto.
Qed.

Lemma query_by_embedding_inv {W} (client : client_t W) (self : store) (query_emb : value)
    (top_k : Z) (ids : value) (s : state W) (response : value) (h0 : heap) (w0 : W)
    (hits paragraphs metas : list value) (s' : state W) :
  client (Search (index self) (query_by_embedding_body (st_heap s) self query_emb top_k ids)
            None) (st_heap s) (st_world s) = (Ok response, h0, w0) ->
  py_path h0 response ["hits"; "hits"] = Ok (VList hits) ->
  query_by_embedding client self query_emb top_k ids s = (Ok (paragraphs, metas), s') ->
  exists (pms : list (value * value)) (s0 : state W),
    st_heap s0 = h0
    /\ steps (query_by_embedding_hit self) hits pms s0 s'
    /\ paragraphs = map fst pms /\ metas = map snd pms.
Proof.
  intros Hcall Hpath H. unfold query_by_embedding in H.
  destruct (truthy_field (embedding_field self)); [|discriminate]. cbn [negb] in H.
  apply bind_inv in H as (h & s1 & Hh & H). unfold get_heap in Hh. injection Hh as <- <-.
  apply bind_inv in H as (u & s1 & Hlog & H). unfold logger in Hlog. injection Hlog as _ <-.
  apply bind_inv in H as (resp & s1 & Hc & H). unfold client_call in Hc.
  cbn [st_heap st_world] in Hc. rewrite Hcall in Hc. injection Hc as <- <-.
  apply bind_inv in H as (v1 & s1 & H1 & H). apply getitem_inv in H1 as [H1 ->].
  apply bind_inv in H as (v2 & s1 & H2 & H). apply getitem_inv in H2 as [H2 ->].
  cbn [st_heap py_path] in *. rewrite H1, H2 in Hpath. injection Hpath as ->.
  apply bind_inv in H as (l & s1 & Hit & H). unfold iter in Hit. cbn in Hit.
  injection Hit as <- <-.
  apply for_fold_steps in H as (pms & Hsteps & [= -> ->]).
  eexists pms, _. split; [|split; [exact Hsteps | split; reflexivity]]. reflexivity.
Qed.

(** C4, amended: for every hit of an embedding query whose backend score is
    the float [S], the score in the projected metadata is [S - 1.0] in
    floating point, provided the hit's source has no field named [score]
    left once its text, docId and name fields are removed. *)
Theorem embedding_score_offset :
  forall (W : Type) (client : client_t W) (self : store) (query_emb : value) (top_k : Z)
         (ids : value) (s : state W) (response : value) (h0 : heap) (w0 : W)
         (hits paragraphs metas : list value) (s' : state W),
    client (Search (index self) (query_by_embedding_body (st_heap s) self query_emb top_k ids)
              None) (st_heap s) (st_world s) = (Ok response, h0, w0) ->
    py_path h0 response ["hits"; "hits"] = Ok (VList hits) ->
    query_by_embedding client self query_emb top_k ids s = (Ok (paragraphs, metas), s') ->
    Forall2 (fun hit meta =>
      forall (S : float) (r : loc),
        py_getitem h0 hit "_score" = Ok (VFloat S) ->
        py_getitem h0 hit "_source" = Ok (VRef r) ->
        dict_get "score" (remaining self (deref h0 r)) = None ->
        py_getitem (st_heap s') meta "score" = Ok (VFloat (S - 1)%float)) hits metas.
Proof.
  intros W client self query_emb top_k ids s response h0 w0 hits paragraphs metas s'
    Hcall Hpath Hrun.
  destruct (query_by_embedding_inv _ _ _ _ _ _ _ _ _ _ _ _ _ Hcall Hpath Hrun)
    as (pms & s0 & <- & Hsteps & -> & ->).
  apply (steps_drops (popped self)) in Hsteps as [_ Hall].
  2:{ intros hit si pm si' Hbody. destruct pm as [t m].
      apply query_by_embedding_hit_inv in Hbody
        as (r & pid & did & dn & sc & sc1 & _ & _ & _ & Hd & _).
      exact Hd. }
  apply Forall2_fmap_r. eapply Forall2_impl; [exact Hall|]. cbn beta.
  intros hit [t m] (si & si' & Hpre & Hbody & Hpost) S r Hscore Hsource Hfree.
  apply query_by_embedding_hit_inv in Hbody
    as (r' & pid & did & dn & sc & sc1 & Hsrc & _ & Hleft & Hd & _ & Hsc & Hsub & ->).
  apply (drops_getitem_ok _ _ _ _ _ _ Hpre) in Hsrc.
  assert (r' = r) as -> by congruence.
  apply (drops_getitem_ok _ _ _ _ _ _ Hd), (drops_getitem_ok _ _ _ _ _ _ Hpre) in Hsc.
  assert (sc = VFloat S) as -> by congruence.
  cbn in Hsub. injection Hsub as <-.
  cbn [snd py_getitem]. rewrite dict_get_update_none; [reflexivity|].
  rewrite Hleft. eapply dict_get_remaining; [|exact Hfree].
  destruct (Hpre r "score") as [E|[_ E]]; auto.
Qed.

Lemma embedding_score_offset_witness :
  exists (paragraphs : list value) (meta : value) (s' : state unit),
    query_by_embedding (stub_client (scored_response (document "some text" "doc" "d1")))
      (flat_store (Some "emb")) (VList [VFloat 1]) 10 VNone empty_state
    = (Ok (paragraphs, [meta]), s')
    /\ py_getitem (st_heap s') meta "score" = Ok (VFloat (1.5 - 1)%float).
Proof.
  eexists _, _, _. split; [vm_compute; reflexivity|].
  pose proof (embedding_score_offset unit
    (stub_client (scored_response (document "some text" "doc" "d1")))
    (flat_store (Some "emb")) (VList [VFloat 1]) 10 VNone empty_state
    _ _ _ [VRef 1%nat] _ _ _ eq_refl eq_refl eq_refl) as H.
  apply Forall2_cons_1 in H as [Hhit _].
  apply (Hhit 1.5%float 0%nat); reflexivity.
Defined.

(** C4 as stated fails: a hit with backend score 1.5 whose source carries
    its own field [score] is reported with that field's value, 42, because
    the remaining source fields are merged over the metadata. *)
Lemma embedding_score_overridden :
  exists (paragraphs : list value) (meta : value) (s' : state unit),
    query_by_embedding
      (stub_client (scored_response (document "some text" "doc" "d1" ++ [("score", VInt 42)])))
      (flat_store (Some "emb")) (VList [VFloat 1]) 10 VNone empty_state
    = (Ok (paragraphs, [meta]), s')
    /\ py_getitem (st_heap s') meta "score" = Ok (VInt 42)
    /\ py_getitem (st_heap s') meta "score" <> Ok (VFloat (1.5 - 1)%float).
Proof.
  eexists _, _, _. split; [vm_compute; reflexivity|].
  split; [reflexivity | discriminate].
Qed.

(** ** Projection mutates the hits *)

Lemma extract_paragraphs_hit_drops {W} (self : store) (hit : value) (s : state W)
    (pm : value * value) (s' : state W) :
  extract_paragraphs_hit self hit s = (Ok pm, s') ->
  drops (eq (text_field self)) (st_heap s) (st_heap s').
Proof.
  destruct pm as [t m]. intros H.
  apply extract_paragraphs_hit_inv in H as (r & ? & ? & ? & ? & _ & _ & -> & _).
  cbn [st_heap]. now apply drops_pop.
Qed.

(** C9: projection works on the hits in place.  A successful flat
    projection drops keys from the objects of the store, and only the text
    field; afterwards the source mapping of every hit has no text field, the
    [custom_meta] of its metadata is a reference to that same source object,
    and projecting the same hits again raises [KeyError].  A successful pass
    of the embedding loop leaves the source of its hit without the text,
    docId and name fields, and cannot be repeated either. *)
Theorem projection_mutates_source :
  forall (W : Type) (self : store),
    (forall (hits : list value) (s : state W) (paragraphs metas : list value)
            (s' : state W),
        extract_paragraphs self (VList hits) s = (Ok (paragraphs, metas), s') ->
        drops (eq (text_field self)) (st_heap s) (st_heap s')
        /\ Forall2 (fun hit meta => exists r : loc,
                      py_getitem (st_heap s) hit "_source" = Ok (VRef r)
                      /\ dict_get (text_field self) (deref (st_heap s') r) = None
                      /\ py_getitem (st_heap s') meta "custom_meta" = Ok (VRef r))
                   hits metas
        /\ (hits <> [] ->
            fst (extract_paragraphs self (VList hits) s') = Raise (KeyError (text_field self))))
    /\ (forall (hit : value) (s : state W) (t m : value) (s' : state W),
        query_by_embedding_hit self hit s = (Ok (t, m), s') ->
        exists r : loc,
          py_getitem (st_heap s) hit "_source" = Ok (VRef r)
          /\ deref (st_heap s') r = remaining self (deref (st_heap s) r)
          /\ (forall k, popped self k -> dict_get k (deref (st_heap s') r) = None)
          /\ fst (query_by_embedding_hit self hit s') = Raise (KeyError (text_field self))).
Proof.
  intros W self. split.
  - intros hits s paragraphs metas s' H. unfold extract_paragraphs in H.
    apply bind_inv in H as (l & s1 & Hit & H). unfold iter in Hit. cbn in Hit.
    injection Hit as <- <-.
    apply for_fold_steps in H as (pms & Hsteps & [= -> ->]).
    apply (steps_drops (eq (text_field self))) in Hsteps as [Hd Hall];
      [|apply extract_paragraphs_hit_drops].
    assert (Hhits : Forall2 (fun hit meta => exists r : loc,
                      py_getitem (st_heap s) hit "_source" = Ok (VRef r)
                      /\ dict_get (text_field self) (deref (st_heap s') r) = None
                      /\ py_getitem (st_heap s') meta "custom_meta" = Ok (VRef r))
                   hits (map snd pms)).
    { apply Forall2_fmap_r. eapply Forall2_impl; [exact Hall|]. cbn beta.
      intros hit [t m] (si & si' & Hpre & Hbody & Hpost).
      apply extract_paragraphs_hit_inv in Hbody
        as (r & pid & did & dn & sc & Hsrc & _ & -> & _ & _ & _ & _ & _ & ->).
      cbn [st_heap] in Hpost. exists r. split; [|split].
      - eapply drops_getitem_ok; eassumption.
      - eapply drops_none; [exact Hpost|]. now rewrite deref_insert, dict_get_del_same.
      - reflexivity. }
    split; [exact Hd|]. split; [exact Hhits|].
    intros Hne. destruct hits as [|hit hits]; [contradiction|].
    apply Forall2_cons_inv_l in Hhits as (m & ms & (r & Hsrc & Hgone & _) & _ & _).
    unfold extract_paragraphs, extract_paragraphs_hit.
    unfold mbind at 1, M_bind at 1, iter. cbn [py_iter for_fold].
    unfold mbind at 1, M_bind at 1. unfold mbind at 1, M_bind at 1.
    unfold mbind at 1, M_bind at 1, getitem at 1.
    destruct (drops_getitem_cases _ _ _ _ _ _ Hd Hsrc) as [->|[<- ->]]; [|reflexivity].
    unfold mbind at 1, M_bind at 1. now rewrite (pop_missing _ _ _ Hgone).
  - intros hit s t m s' H.
    apply query_by_embedding_hit_inv in H
      as (r & pid & did & dn & sc & sc1 & Hsrc & _ & Hleft & _ & Hsrc' & _).
    assert (Hgone : forall k, popped self k -> dict_get k (deref (st_heap s') r) = None).
    { intros k Hk. rewrite Hleft. unfold remaining. rewrite !dict_get_del.
      destruct Hk as [->|[->| ->]]; rewrite ?String.eqb_refl;
        repeat match goal with |- context [String.eqb ?a ?b] => destruct (String.eqb a b) end;
        reflexivity. }
    exists r. repeat split; try assumption.
    unfold query_by_embedding_hit. unfold mbind at 1, M_bind at 1, getitem at 1.
    rewrite Hsrc'. unfold mbind at 1, M_bind at 1.
    rewrite (pop_missing r (text_field self) s'); [reflexivity|].
    apply Hgone. now left.
Qed.

Lemma projection_mutates_source_witness :
  exists s' : state unit,
    extract_paragraphs (flat_store None) one_hit.1 one_hit.2
    = (Ok ([VStr "some text"],
           [VDict [("paragraph_id", VStr "p1"); ("document_id", VStr "d1");
                   ("document_name", VStr "doc"); ("score", VFloat 1.5);
                   ("custom_meta", VRef 0%nat)]]), s')
    /\ deref (st_heap one_hit.2) 0%nat = document "some text" "doc" "d1"
    /\ deref (st_heap s') 0%nat = [("name", VStr "doc"); ("document_id", VStr "d1")]
    /\ fst (extract_paragraphs (flat_store None) one_hit.1 s') = Raise (KeyError "text").
Proof.
  eexists. split; [vm_compute; reflexivity|].
  split; [reflexivity|]. split; [reflexivity|].
  destruct (projection_mutates_source unit (flat_store None)) as [Hflat _].
  refine (proj2 (proj2 (Hflat [VRef 1%nat] one_hit.2 _ _ _ _)) _).
  - vm_compute. reflexivity.
  - discriminate.
Defined.

Example embedding_projection_pops :
  exists (s' : state unit),
    query_by_embedding_hit (flat_store (Some "emb")) (VRef 1%nat) one_hit.2
    = (Ok (VStr "some text",
           VDict [("paragraph_id", VStr "p1"); ("document_id", VStr "d1");
                  ("document_name", VStr "doc"); ("score", VFloat 0.5)]), s')
    /\ deref (st_heap s') 0%nat = []
    /\ fst (query_by_embedding_hit (flat_store (Some "emb")) (VRef 1%nat) s')
       = Raise (KeyError "text").
Proof. eexists. split; [vm_compute; reflexivity|]. split; reflexivity. Qed.

(** ** The order of float scores *)

Lemma SFcompare_rank (a b : spec_float) :
  a <> S754_nan -> b <> S754_nan ->
  SFcompare a b = Some (rank_compare (sf_rank a) (sf_rank b)).
Proof.
  intros Ha Hb.
  destruct a as [sa|sa| |sa ma ea], b as [sb|sb| |sb mb eb]; try contradiction;
    try destruct sa; try destruct sb; try reflexivity;
    unfold SFcompare, sf_rank, rank_compare; cbn [fst snd]; f_equal.
  rewrite Z.compare_refl, Z.compare_opp, (Z.compare_antisym ea eb).
  destruct (ea ?= eb); reflexivity.
Qed.

Lemma rank_compare_lt_trans (a b c : Z * Z * Z) :
  rank_compare a b <> Lt -> rank_compare b c <> Lt -> rank_compare a c <> Lt.
Proof.
  destruct a as [[a1 a2] a3], b as [[b1 b2] b3], c as [[c1 c2] c3].
  unfold rank_compare. cbn [fst snd].
  destruct (Z.compare_spec a1 b1), (Z.compare_spec b1 c1), (Z.compare_spec a1 c1);
    try lia; try congruence;
    destruct (Z.compare_spec a2 b2), (Z.compare_spec b2 c2), (Z.compare_spec a2 c2);
    try lia; try congruence;
    destruct (Z.compare_spec a3 b3), (Z.compare_spec b3 c3), (Z.compare_spec a3 c3);
    try lia; congruence.
Qed.

Lemma rank_compare_antisym (a b : Z * Z * Z) :
  rank_compare a b = Lt -> rank_compare b a <> Lt.
Proof.
  destruct a as [[a1 a2] a3], b as [[b1 b2] b3].
  unfold rank_compare. cbn [fst snd].
  destruct (Z.compare_spec a1 b1), (Z.compare_spec b1 a1); try lia; try congruence;
    destruct (Z.compare_spec a2 b2), (Z.compare_spec b2 a2); try lia; try congruence;
    destruct (Z.compare_spec a3 b3), (Z.compare_spec b3 a3); try lia; congruence.
Qed.

Lemma not_nan_spec (f : float) : not_nan f -> Prim2SF f <> S754_nan.
Proof.
  unfold not_nan, PrimFloat.is_nan. rewrite FloatAxioms.eqb_spec. intros H E. rewrite E in H.
  discriminate.
Qed.

Lemma float_ltb_rank (x y : float) :
  not_nan x -> not_nan y ->
  PrimFloat.ltb x y = true <-> rank_compare (sf_rank (Prim2SF x)) (sf_rank (Prim2SF y)) = Lt.
Proof.
  intros Hx%not_nan_spec Hy%not_nan_spec. rewrite FloatAxioms.ltb_spec. unfold SFltb.
  rewrite (SFcompare_rank _ _ Hx Hy).
  destruct (rank_compare _ _); split; congruence.
Qed.

Lemma float_ltb_asym (x y : float) :
  not_nan x -> not_nan y -> PrimFloat.ltb x y = true -> PrimFloat.ltb y x = false.
Proof.
  intros Hx Hy H. apply (float_ltb_rank _ _ Hx Hy) in H.
  apply rank_compare_antisym in H. apply not_true_is_false.
  now rewrite (float_ltb_rank _ _ Hy Hx).
Qed.

Lemma float_ltb_false_trans (x y z : float) :
  not_nan x -> not_nan y -> not_nan z ->
  PrimFloat.ltb x y = false -> PrimFloat.ltb y z = false -> PrimFloat.ltb x z = false.
Proof.
  intros Hx Hy Hz Hxy Hyz. apply not_true_is_false.
  rewrite (float_ltb_rank _ _ Hx Hz).
  apply rank_compare_lt_trans with (b := sf_rank (Prim2SF y)).
  - rewrite <- (float_ltb_rank _ _ Hx Hy). congruence.
  - rewrite <- (float_ltb_rank _ _ Hy Hz). congruence.
Qed.

(** With no NaN, [not (x < y)] is [y <= x]. *)
Lemma float_ltb_false_leb (x y : float) :
  not_nan x -> not_nan y -> PrimFloat.ltb x y = false <-> PrimFloat.leb y x = true.
Proof.
  intros Hx%not_nan_spec Hy%not_nan_spec.
  rewrite FloatAxioms.ltb_spec, FloatAxioms.leb_spec. unfold SFltb, SFleb.
  rewrite (SFcompare_rank _ _ Hx Hy), (SFcompare_rank _ _ Hy Hx).
  destruct (sf_rank (Prim2SF x)) as [[a1 a2] a3], (sf_rank (Prim2SF y)) as [[b1 b2] b3].
  unfold rank_compare. cbn [fst snd].
  destruct (Z.compare_spec a1 b1), (Z.compare_spec b1 a1); try lia; try (split; congruence);
    destruct (Z.compare_spec a2 b2), (Z.compare_spec b2 a2); try lia; try (split; congruence);
    destruct (Z.compare_spec a3 b3), (Z.compare_spec b3 a3); try lia; split; congruence.
Qed.

(** ** Sorting by score *)

Lemma py_ltb_asym (a b : value) :
  float_key a -> float_key b -> py_ltb a b = true -> py_ltb b a = false.
Proof. intros (x & -> & Hx) (y & -> & Hy). cbn. now apply float_ltb_asym. Qed.

Lemma py_ltb_false_trans (a b c : value) :
  float_key a -> float_key b -> float_key c ->
  py_ltb a b = false -> py_ltb b c = false -> py_ltb a c = false.
Proof.
  intros (x & -> & Hx) (y & -> & Hy) (z & -> & Hz). cbn.
  now apply float_ltb_false_trans.
Qed.

(** On such keys [not (a < b)] reads [b <= a]. *)
Lemma py_ltb_false_leb (x y : float) :
  not_nan x -> not_nan y ->
  py_ltb (VFloat x) (VFloat y) = false <-> PrimFloat.leb y x = true.
Proof. intros Hx Hy. cbn. now apply float_ltb_false_leb. Qed.

Lemma sortable_floats (keys : list value) : Forall float_key keys -> sortable keys = true.
Proof.
  intros H. destruct keys as [|k [|k' ks]]; [reflexivity..|].
  unfold sortable. apply forallb_forall. intros v Hv.
  assert (Hk : float_key k) by now apply Forall_cons_1 in H.
  assert (Hvk : float_key v).
  { rewrite Forall_forall in H. apply H. now apply list_elem_of_In. }
  destruct Hk as (x & -> & _), Hvk as (y & -> & _). reflexivity.
Qed.

Section SortFacts.
Context {A : Type} (key : A -> value).

Lemma insert_desc_perm (x : A) (l : list A) : Permutation (insert_desc key x l) (x :: l).
Proof.
  induction l as [|y ys IH]; cbn [insert_desc]; [reflexivity|].
  destruct (py_ltb (key x) (key y)); [|reflexivity].
  rewrite IH. apply perm_swap.
Qed.

Lemma sort_desc_perm (l : list A) : Permutation (foldr (insert_desc key) [] l) l.
Proof.
  induction l as [|x l IH]; cbn [foldr]; [reflexivity|].
  rewrite insert_desc_perm. now constructor.
Qed.

Lemma insert_desc_sorted (x : A) (l : list A) :
  Forall (fun a => float_key (key a)) (x :: l) ->
  StronglySorted (not_below key) l -> StronglySorted (not_below key) (insert_desc key x l).
Proof.
  intros Hkeys Hsorted. apply Forall_cons_1 in Hkeys as [Hx Hl].
  induction Hsorted as [|y ys Hys IH Hy]; cbn [insert_desc].
  - repeat constructor.
  - apply Forall_cons_1 in Hl as [Hky Hkys].
    destruct (py_ltb (key x) (key y)) eqn:E.
    + constructor; [now apply IH|].
      eapply Permutation_Forall; [symmetry; apply insert_desc_perm|].
      constructor; [|assumption]. now apply py_ltb_asym.
    + constructor; [now constructor|]. constructor; [exact E|].
      rewrite Forall_forall in Hy, Hkys |- *. intros z Hz. unfold not_below in *.
      apply (py_ltb_false_trans _ (key y)); auto.
Qed.

Lemma sort_desc_sorted (l : list A) :
  Forall (fun a => float_key (key a)) l ->
  StronglySorted (not_below key) (foldr (insert_desc key) [] l).
Proof.
  induction 1 as [|x l Hx Hl IH]; cbn [foldr]; [constructor|].
  apply insert_desc_sorted; [|assumption].
  constructor; [assumption|].
  eapply Permutation_Forall; [symmetry; apply sort_desc_perm | assumption].
Qed.

(** Sorting the list decorated with its keys, then dropping the keys. *)
Lemma insert_desc_decorated (x : A) (l : list A) :
  insert_desc fst (key x, x) (map (fun a => (key a, a)) l)
  = map (fun a => (key a, a)) (insert_desc key x l).
Proof.
  induction l as [|y ys IH]; cbn [insert_desc map fst]; [reflexivity|].
  destruct (py_ltb (key x) (key y)); cbn [map]; [now rewrite IH | reflexivity].
Qed.

Lemma sort_desc_decorated (l : list A) :
  map snd (foldr (insert_desc fst) [] (combine (map key l) l))
  = foldr (insert_desc key) [] l.
Proof.
  assert (Hc : forall l', combine (map key l') l' = map (fun a => (key a, a)) l').
  { induction l' as [|a l' IH]; cbn; [reflexivity | now rewrite IH]. }
  rewrite Hc.
  assert (Hs : foldr (insert_desc fst) [] (map (fun a => (key a, a)) l)
               = map (fun a => (key a, a)) (foldr (insert_desc key) [] l)).
  { induction l as [|x l IH]; cbn [foldr map]; [reflexivity|].
    now rewrite IH, insert_desc_decorated. }
  rewrite Hs, map_map. cbn. apply map_id.
Qed.
End SortFacts.

(** ** Nested projection *)

Lemma getitem_ok {W} (obj : value) (k : string) (s : state W) (v : value) :
  py_getitem (st_heap s) obj k = Ok v -> getitem obj k s = (Ok v, s).
Proof. unfold getitem. now intros ->. Qed.

Ltac step_getitem H := rewrite (bind_ok _ _ _ _ _ (getitem_ok _ _ _ _ H)).

Lemma emits_score (h : heap) (self : store) (hit inner_hit : value) (pm : value * value) :
  emits h self hit inner_hit pm ->
  py_getitem h inner_hit "_score" = Ok (score_of pm)
  /\ py_getitem h pm.2 "score" = Ok (score_of pm).
Proof.
  intros (src & pid & did & dn & sc & _ & _ & _ & _ & _ & Hsc & Hm).
  unfold score_of. rewrite Hm. cbn. auto.
Qed.

Lemma extract_paragraphs_nested_hit_run {W} (self : store) (hit inner_hit : value)
    (pm : value * value) (s : state W) :
  emits (st_heap s) self hit inner_hit pm ->
  extract_paragraphs_nested_hit self hit inner_hit s = (Ok pm, s).
Proof.
  intros (src & pid & did & dn & sc & Hsrc & Ht & Hpid & Hdid & Hdn & Hsc & Hm).
  destruct pm as [t m]. cbn [fst snd] in *. subst m.
  unfold extract_paragraphs_nested_hit.
  step_getitem Hsrc. step_getitem Ht. step_getitem Hpid. step_getitem Hsrc.
  step_getitem Hdid. step_getitem Hsrc. step_getitem Hdn. step_getitem Hsc.
  step_getitem Hsrc. reflexivity.
Qed.

Lemma inner_loop_run {W} (self : store) (hit : value) (inner : list value)
    (pms : list (value * value)) (s : state W) :
  Forall2 (emits (st_heap s) self hit) inner pms ->
  forall acc : list value * list value,
    for_fold inner acc (fun acc inner_hit =>
      pm ← extract_paragraphs_nested_hit self hit inner_hit;
      mret (acc.1 ++ [pm.1], acc.2 ++ [pm.2])) s
    = (Ok (acc.1 ++ map fst pms, acc.2 ++ map snd pms), s).
Proof.
  induction 1 as [|ih pm inner pms Hpm _ IH]; intros acc; cbn [for_fold map].
  - rewrite !app_nil_r. now destruct acc.
  - rewrite (bind_ok _ _ _ _ _
      (bind_ok _ _ _ _ _ (extract_paragraphs_nested_hit_run _ _ _ _ _ Hpm))).
    rewrite IH. cbn [fst snd]. now rewrite <- !app_assoc.
Qed.

Lemma outer_loop_run {W} (self : store) (hits : list value)
    (groups : list (list (value * value))) (s : state W) :
  Forall2 (emits_all (st_heap s) self) hits groups ->
  forall acc : list value * list value,
    for_fold hits acc (fun acc hit =>
      inner_hits ← getitem hit "inner_hits";
      at_path ← getitem inner_hits (nested_path self);
      inner ← getitem at_path "hits";
      inner ← getitem inner "hits";
      inner ← iter inner;
      for_fold inner acc (fun acc inner_hit =>
        pm ← extract_paragraphs_nested_hit self hit inner_hit;
        mret (acc.1 ++ [pm.1], acc.2 ++ [pm.2]))) s
    = (Ok (acc.1 ++ map fst (concat groups), acc.2 ++ map snd (concat groups)), s).
Proof.
  induction 1 as [|hit pms hits groups (inner & Hpath & Hinner) _ IH]; intros acc;
    cbn [for_fold concat map].
  - rewrite !app_nil_r. now destruct acc.
  - cbn [py_path] in Hpath.
    destruct (py_getitem (st_heap s) hit "inner_hits") as [v1|] eqn:H1; [|discriminate].
    destruct (py_getitem (st_heap s) v1 (nested_path self)) as [v2|] eqn:H2; [|discriminate].
    destruct (py_getitem (st_heap s) v2 "hits") as [v3|] eqn:H3; [|discriminate].
    destruct (py_getitem (st_heap s) v3 "hits") as [v4|] eqn:H4; [|discriminate].
    injection Hpath as ->.
    match goal with |- (?m ≫= _) s = _ =>
      assert (Hbody : m s = (Ok (acc.1 ++ map fst pms, acc.2 ++ map snd pms), s)) end.
    { step_getitem H1. step_getitem H2. step_getitem H3. step_getitem H4.
      unfold mbind at 1, M_bind at 1, iter. cbn [py_iter].
      apply (inner_loop_run _ _ _ _ _ Hinner). }
    rewrite (bind_ok _ _ _ _ _ Hbody), IH. cbn [fst snd].
    now rewrite !map_app, !app_assoc.
Qed.

Lemma nested_pairs_run {W} (self : store) (hits : list value)
    (groups : list (list (value * value))) (s : state W) :
  Forall2 (emits_all (st_heap s) self) hits groups ->
  nested_pairs self (VList hits) s
  = (Ok (map fst (concat groups), map snd (concat groups)), s).
Proof.
  intros H. unfold nested_pairs.
  unfold mbind at 1, M_bind at 1, iter. cbn [py_iter].
  now rewrite (outer_loop_run _ _ _ _ H).
Qed.

Lemma combine_fst_snd {A B} (l : list (A * B)) : combine (map fst l) (map snd l) = l.
Proof. induction l as [|[a b] l IH]; cbn; [reflexivity | now rewrite IH]. Qed.

Lemma score_keys_run {W} (zipped : list (value * value)) (s : state W) :
  Forall (fun x => py_getitem (st_heap s) x.2 "score" = Ok (score_of x)) zipped ->
  forall keys : list value,
    for_fold zipped keys (fun keys x => k ← getitem x.2 "score"; mret (keys ++ [k])) s
    = (Ok (keys ++ map score_of zipped), s).
Proof.
  induction 1 as [|x zipped Hx _ IH]; intros keys; cbn [for_fold map].
  - now rewrite app_nil_r.
  - rewrite (bind_ok _ _ _ _ _ (bind_ok _ _ _ _ _ (getitem_ok _ _ _ _ Hx))).
    unfold mret at 1, M_ret at 1. now rewrite IH, <- app_assoc.
Qed.

Lemma sort_by_score_run {W} (zipped : list (value * value)) (s : state W) :
  Forall (fun x => py_getitem (st_heap s) x.2 "score" = Ok (score_of x)) zipped ->
  Forall (fun x => float_key (score_of x)) zipped ->
  sort_by_score zipped s = (Ok (foldr (insert_desc score_of) [] zipped), s).
Proof.
  intros Hscore Hfloat. unfold sort_by_score.
  rewrite (bind_ok _ _ _ _ _ (score_keys_run _ _ Hscore [])). cbn [app].
  unfold py_sort_desc.
  replace (map fst (combine (map score_of zipped) zipped)) with (map score_of zipped).
  2:{ clear. induction zipped as [|x l IH]; cbn; [reflexivity | now rewrite <- IH]. }
  rewrite sortable_floats by now apply Forall_map.
  unfold mbind, M_bind, lift, mret, M_ret. now rewrite sort_desc_decorated.
Qed.

(** C5: for every nested result in which each outer hit lists its inner
    hits and each inner hit has its source fields and a float score, and for
    every [top_k >= 0], the projector leaves the state alone and works as
    follows.  With [flat] the pairs of all inner hits in order, one per inner
    hit (paragraph id from the outer hit; text, document id, document name
    and score from the inner hit), there is a list [ranked], a permutation of
    [flat] in which no pair has a score below that of a later pair, such that
    the outcome is the unpacking of the first [top_k] pairs of [ranked]: the
    two lists of their texts and of their metadata as soon as there is an
    inner hit and [top_k] is positive. *)
Theorem nested_projection_ranks :
  forall (W : Type) (self : store) (hits : list value) (top_k : Z) (s : state W)
         (groups : list (list (value * value))),
    Forall2 (emits_all (st_heap s) self) hits groups ->
    Forall (fun pm => float_key (score_of pm)) (concat groups) ->
    0 <= top_k ->
    exists ranked : list (value * value),
      Permutation ranked (concat groups)
      /\ StronglySorted (not_below score_of) ranked
      /\ extract_paragraphs_nested self (VList hits) top_k s
         = (unzip_pairs (firstn (Z.to_nat top_k) ranked), s)
      /\ (concat groups <> [] -> 0 < top_k ->
          unzip_pairs (firstn (Z.to_nat top_k) ranked)
          = Ok (map fst (firstn (Z.to_nat top_k) ranked),
                map snd (firstn (Z.to_nat top_k) ranked))).
Proof.
  intros W self hits top_k s groups Hemit Hfloat Hk.
  set (flat := concat groups) in *.
  exists (foldr (insert_desc score_of) [] flat).
  split; [apply sort_desc_perm|]. split; [now apply sort_desc_sorted|]. split.
  - unfold extract_paragraphs_nested.
    rewrite (bind_ok _ _ _ _ _ (nested_pairs_run _ _ _ _ Hemit)). cbn [fst snd].
    fold flat. rewrite combine_fst_snd.
    assert (Hscore :
      Forall (fun x => py_getitem (st_heap s) x.2 "score" = Ok (score_of x)) flat).
    { subst flat. clear -Hemit. induction Hemit as [|hit pms hits groups Hpms _ IH]; cbn.
      - constructor.
      - apply Forall_app. split; [|exact IH].
        destruct Hpms as (inner & _ & Hinner). clear -Hinner.
        induction Hinner as [|ih pm inner pms Hpm _ IH]; constructor; [|exact IH].
        now apply emits_score in Hpm. }
    rewrite (bind_ok _ _ _ _ _ (sort_by_score_run _ _ Hscore Hfloat)).
    unfold py_slice_to, lift. now rewrite (proj2 (Z.leb_le 0 top_k)) by lia.
  - intros Hne Hpos.
    assert (Hranked : foldr (insert_desc score_of) [] flat <> []).
    { intros E. apply Hne. apply Permutation_nil. rewrite <- E.
      apply sort_desc_perm. }
    destruct (foldr (insert_desc score_of) [] flat) as [|x ranked]; [contradiction|].
    destruct (Z.to_nat top_k) as [|n] eqn:En; [lia|]. reflexivity.
Qed.

Example rerank_hits_refs : rerank_hits.1 = VList [VRef 7%nat; VRef 13%nat].
Proof. vm_compute. reflexivity. Qed.

Example nested_rerank_top_2 :
  extract_paragraphs_nested nested_store (VList [VRef 7%nat; VRef 13%nat]) 2 rerank_hits.2
  = (Ok ([VStr "high"; VStr "mid"],
         [metadata "H1" "d1" "doc1" 0.9 2%nat; metadata "H2" "d2" "doc2" 0.5 8%nat]),
     rerank_hits.2).
Proof. vm_compute. reflexivity. Qed.

Lemma rerank_hits_emit :
  Forall2 (emits_all (st_heap rerank_hits.2) nested_store)
    [VRef 7%nat; VRef 13%nat] rerank_groups.
Proof.
  constructor; [|constructor; [|constructor]].
  - exists [VRef 1%nat; VRef 3%nat]. split; [vm_compute; reflexivity|].
    constructor; [|constructor; [|constructor]].
    + exists (VRef 0%nat), (VStr "H1"), (VStr "d1"), (VStr "doc1"), (VFloat 0.2).
      repeat split; vm_compute; reflexivity.
    + exists (VRef 2%nat), (VStr "H1"), (VStr "d1"), (VStr "doc1"), (VFloat 0.9).
      repeat split; vm_compute; reflexivity.
  - exists [VRef 9%nat]. split; [vm_compute; reflexivity|].
    constructor; [|constructor].
    exists (VRef 8%nat), (VStr "H2"), (VStr "d2"), (VStr "doc2"), (VFloat 0.5).
    repeat split; vm_compute; reflexivity.
Qed.

Lemma rerank_groups_float :
  Forall (fun pm => float_key (score_of pm)) (concat rerank_groups).
Proof.
  constructor; [|constructor; [|constructor; [|constructor]]];
    eexists; (split; [reflexivity|]); reflexivity.
Qed.

Lemma nested_projection_ranks_witness :
  exists ranked : list (value * value),
    Permutation ranked (concat rerank_groups)
    /\ StronglySorted (not_below score_of) ranked
    /\ firstn 2 ranked = [(VStr "high", metadata "H1" "d1" "doc1" 0.9 2%nat);
                          (VStr "mid", metadata "H2" "d2" "doc2" 0.5 8%nat)]
    /\ extract_paragraphs_nested nested_store (VList [VRef 7%nat; VRef 13%nat]) 2
         rerank_hits.2
       = (Ok (map fst (firstn 2 ranked), map snd (firstn 2 ranked)), rerank_hits.2).
Proof.
  destruct (nested_projection_ranks unit nested_store [VRef 7%nat; VRef 13%nat] 2
              rerank_hits.2 rerank_groups rerank_hits_emit rerank_groups_float)
    as (ranked & Hperm & Hsorted & Hrun & Hok); [intros E; discriminate E|].
  assert (Hne : concat rerank_groups <> []) by (intros E; discriminate E).
  specialize (Hok Hne eq_refl). clear Hne.
  change (Z.to_nat 2) with 2%nat in Hrun, Hok.
  rewrite Hok in Hrun. clear Hok.
  pose proof (f_equal fst (eq_trans (eq_sym nested_rerank_top_2) Hrun)) as Hout.
  cbv beta iota delta [fst] in Hout. injection Hout as Hf Hs.
  exists ranked. split; [exact Hperm|]. split; [exact Hsorted|]. split; [|exact Hrun].
  clear Hrun Hperm Hsorted.
  destruct (firstn 2 ranked) as [|[t1 m1] [|[t2 m2] [|? ?]]]; try discriminate Hf.
  cbn [map fst snd] in Hf, Hs. congruence.
Defined.

(** * Further properties *)

(** ** Lookup by name *)

(** X1: [get_document_by_name] returns [None] when the search has no hit;
    when it has one or more, subscripting the hit list with a field name
    raises [TypeError]. *)
Theorem get_document_by_name_result :
  forall (W : Type) (client : client_t W) (self : store) (name : value) (s : state W)
         (response : value) (h' : heap) (w' : W) (hits : list value),
    client (Search (index self)
              (VDict [("filter", VDict [("term", VDict [(name_field self, name)])])]) None)
           (st_heap s) (st_world s) = (Ok response, h', w') ->
    py_path h' response ["hits"; "hits"] = Ok (VList hits) ->
    fst (get_document_by_name client self name s)
    = match hits with
      | [] => Ok VNone
      | _ :: _ => Raise TypeError
      end.
Proof.
  intros W client self name s response h' w' hits Hcall Hpath.
  unfold get_document_by_name, client_call.
  unfold mbind at 1, M_bind at 1. cbn [dict_lit fold_left dict_set fst snd].
  rewrite Hcall. cbn [py_path] in Hpath.
  destruct (py_getitem h' response "hits") as [v|e] eqn:H1; [|discriminate].
  destruct (py_getitem h' v "hits") as [v'|e] eqn:H2; [|discriminate].
  injection Hpath as ->.
  unfold mbind, M_bind, getitem, truth, mret, M_ret. cbn [st_heap].
  rewrite H1, H2. destruct hits; reflexivity.
Qed.

Lemma get_document_by_name_result_witness :
  fst (get_document_by_name
         (stub_client (search_response [flat_hit "1" 1 (document "some text" "doc" "1")]))
         (flat_store None) (VStr "doc") empty_state)
  = Raise TypeError.
Proof.
  pose proof (get_document_by_name_result unit
    (stub_client (search_response [flat_hit "1" 1 (document "some text" "doc" "1")]))
    (flat_store None) (VStr "doc") empty_state) as H.
  specialize (H _ _ _ [VRef 1%nat] eq_refl eq_refl). exact H.
Defined.

(** ** All documents *)

Lemma get_all_documents_hit_run {W} (self : store) (hit doc : value) (s : state W) :
  document_of (st_heap s) self hit doc ->
  get_all_documents_hit self hit s = (Ok doc, s).
Proof.
  intros (src & i & n & t & Hsrc & Hi & Hn & Ht & ->).
  unfold get_all_documents_hit.
  step_getitem Hsrc. step_getitem Hi. step_getitem Hsrc. step_getitem Hn.
  step_getitem Hsrc. step_getitem Ht. reflexivity.
Qed.

Lemma get_all_documents_loop {W} (self : store) (hits docs : list value) (s : state W) :
  Forall2 (document_of (st_heap s) self) hits docs ->
  forall acc : list value,
    for_fold hits acc (fun documents hit =>
      d ← get_all_documents_hit self hit; mret (documents ++ [d])) s
    = (Ok (acc ++ docs), s).
Proof.
  induction 1 as [|hit doc hits docs Hdoc _ IH]; intros acc; cbn [for_fold].
  - now rewrite app_nil_r.
  - rewrite (bind_ok _ _ _ _ _
      (bind_ok _ _ _ _ _ (get_all_documents_hit_run _ _ _ _ Hdoc))).
    unfold mret at 1, M_ret at 1. now rewrite IH, <- app_assoc.
Qed.

(** X2: when the scan yields its hits without failing and every hit has a
    source with the three fields, [get_all_documents] returns one record
    (id, name, text) per hit, in the order of the scan, and changes nothing
    in the objects of the store, the request trace or the log. *)
Theorem get_all_documents_records :
  forall (W : Type) (scan : scan_t W) (self : store) (s : state W)
         (hits docs : list value) (h' : heap) (w' : W),
    scan (index self) match_all_query (st_heap s) (st_world s) = (hits, None, h', w') ->
    Forall2 (document_of h' self) hits docs ->
    get_all_documents scan self s = (Ok docs, State h' w' (st_calls s) (st_log s)).
Proof.
  intros W scan self s hits docs h' w' Hscan Hdocs.
  unfold get_all_documents. rewrite Hscan.
  rewrite (bind_ok _ _ _ _ _
    (get_all_documents_loop self hits docs (State h' w' (st_calls s) (st_log s)) Hdocs [])).
  reflexivity.
Qed.

Lemma get_all_documents_records_witness :
  fst (get_all_documents
         (stub_scan [flat_hit "p1" 1 (document "a" "A" "1");
                     flat_hit "p2" 1 (document "b" "B" "2")])
         (flat_store None) empty_state)
  = Ok [VDict [("id", VStr "1"); ("name", VStr "A"); ("text", VStr "a")];
        VDict [("id", VStr "2"); ("name", VStr "B"); ("text", VStr "b")]].
Proof.
  erewrite (get_all_documents_records unit
    (stub_scan [flat_hit "p1" 1 (document "a" "A" "1");
                flat_hit "p2" 1 (document "b" "B" "2")])
    (flat_store None) empty_state [VRef 1%nat; VRef 3%nat]
    [VDict [("id", VStr "1"); ("name", VStr "A"); ("text", VStr "a")];
     VDict [("id", VStr "2"); ("name", VStr "B"); ("text", VStr "b")]]).
  - reflexivity.
  - vm_compute. reflexivity.
  - constructor; [|constructor; [|constructor]].
    + exists (VRef 0%nat), (VStr "1"), (VStr "A"), (VStr "a").
      repeat split; vm_compute; reflexivity.
    + exists (VRef 2%nat), (VStr "2"), (VStr "B"), (VStr "b").
      repeat split; vm_compute; reflexivity.
Defined.

(** X3: [get_all_documents] never returns a partial list.  If the scan
    raises after the hits it yielded, that exception is raised; if a hit
    comes after well-formed ones and its source lacks the docId field, the
    call raises [KeyError] for that field, whatever follows. *)
Theorem get_all_documents_all_or_nothing :
  forall (W : Type) (scan : scan_t W) (self : store) (s : state W)
         (hits docs : list value) (failure : option exn) (h' : heap) (w' : W),
    (forall e : exn,
        scan (index self) match_all_query (st_heap s) (st_world s) = (hits, Some e, h', w') ->
        Forall2 (document_of h' self) hits docs ->
        fst (get_all_documents scan self s) = Raise e)
    /\ (forall (bad source : value) (rest : list value),
        scan (index self) match_all_query (st_heap s) (st_world s)
        = (hits ++ bad :: rest, failure, h', w') ->
        Forall2 (document_of h' self) hits docs ->
        py_getitem h' bad "_source" = Ok source ->
        py_getitem h' source (doc_id_field self) = Raise (KeyError (doc_id_field self)) ->
        fst (get_all_documents scan self s) = Raise (KeyError (doc_id_field self))).
Proof.
  intros W scan self s hits docs failure h' w'. split.
  - intros e Hscan Hdocs. unfold get_all_documents. rewrite Hscan.
    rewrite (bind_ok _ _ _ _ _
      (get_all_documents_loop self hits docs (State h' w' (st_calls s) (st_log s)) Hdocs [])).
    reflexivity.
  - intros bad source rest Hscan Hdocs Hsrc Hmissing.
    unfold get_all_documents. rewrite Hscan.
    set (s1 := State h' w' (st_calls s) (st_log s)).
    assert (Hloop : forall acc,
      for_fold (hits ++ bad :: rest) acc (fun documents hit =>
        d ← get_all_documents_hit self hit; mret (documents ++ [d])) s1
      = (Raise (KeyError (doc_id_field self)), s1)).
    { change h' with (st_heap s1) in Hdocs, Hsrc, Hmissing. clearbody s1. clear Hscan.
      induction Hdocs as [|hit doc hits docs Hdoc _ IH]; intros acc;
        cbn [app for_fold].
      - apply bind_raise, bind_raise. unfold get_all_documents_hit.
        step_getitem Hsrc. apply bind_raise. unfold getitem. now rewrite Hmissing.
      - rewrite (bind_ok _ _ _ _ _
          (bind_ok _ _ _ _ _ (get_all_documents_hit_run _ _ _ _ Hdoc))).
        unfold mret at 1, M_ret at 1. apply IH. }
    now rewrite (bind_raise _ _ _ _ _ (Hloop [])).
Qed.

Lemma get_all_documents_all_or_nothing_witness :
  fst (get_all_documents
         (stub_scan [flat_hit "p1" 1 (document "a" "A" "1");
                     flat_hit "p2" 1 [("text", VStr "b"); ("name", VStr "B")]])
         (flat_store None) empty_state)
  = Raise (KeyError "document_id").
Proof.
  edestruct (get_all_documents_all_or_nothing unit
    (stub_scan [flat_hit "p1" 1 (document "a" "A" "1");
                flat_hit "p2" 1 [("text", VStr "b"); ("name", VStr "B")]])
    (flat_store None) empty_state [VRef 1%nat]
    [VDict [("id", VStr "1"); ("name", VStr "A"); ("text", VStr "a")]] None) as [_ H].
  eapply (H (VRef 3%nat) (VRef 2%nat) []).
  - vm_compute. reflexivity.
  - constructor; [|constructor].
    exists (VRef 0%nat), (VStr "1"), (VStr "A"), (VStr "a").
    repeat split; vm_compute; reflexivity.
  - vm_compute. reflexivity.
  - vm_compute. reflexivity.
Defined.

(** ** Computations that leave the state, or the outside world, alone *)

Lemma pure_ret {W A} (a : A) : pure (mret a : M W A).
Proof. intros s. reflexivity. Qed.

Lemma pure_bind {W A B} (m : M W A) (f : A -> M W B) :
  pure m -> (forall a, pure (f a)) -> pure (m ≫= f).
Proof.
  intros Hm Hf s. unfold mbind, M_bind. specialize (Hm s).
  destruct (m s) as [[a|e] s1]; cbn [snd] in *; subst s1; [apply Hf | reflexivity].
Qed.

Lemma pure_getitem {W} (obj : value) (k : string) : pure (getitem obj k : M W value).
Proof. intros s. reflexivity. Qed.

Lemma pure_iter {W} (v : value) : pure (iter v : M W (list value)).
Proof. intros s. reflexivity. Qed.

Lemma pure_lift {W A} (r : res A) : pure (lift r : M W A).
Proof. intros s. reflexivity. Qed.

Lemma pure_for_fold {W A B} (l : list A) (body : B -> A -> M W B) :
  (forall acc x, pure (body acc x)) -> forall acc, pure (for_fold l acc body).
Proof.
  intros Hbody. induction l as [|x l IH]; intros acc; cbn [for_fold].
  - apply pure_ret.
  - apply pure_bind; [apply Hbody | apply IH].
Qed.

Lemma quiet_pure {W A} (m : M W A) : pure m -> quiet m.
Proof. intros H s. now rewrite (H s). Qed.

Lemma quiet_bind {W A B} (m : M W A) (f : A -> M W B) :
  quiet m -> (forall a, quiet (f a)) -> quiet (m ≫= f).
Proof.
  intros Hm Hf s. unfold mbind, M_bind. destruct (Hm s) as (Hw & Hc & Hl).
  destruct (m s) as [[a|e] s1]; cbn [snd] in *; [|auto].
  destruct (Hf a s1) as (Hw' & Hc' & Hl'). repeat split; congruence.
Qed.

Lemma quiet_pop {W} (obj : value) (k : string) : quiet (pop obj k : M W value).
Proof. intros s. unfold pop. now destruct (py_pop (st_heap s) obj k). Qed.

Lemma quiet_for_fold {W A B} (l : list A) (body : B -> A -> M W B) :
  (forall acc x, quiet (body acc x)) -> forall acc, quiet (for_fold l acc body).
Proof.
  intros Hbody. induction l as [|x l IH]; intros acc; cbn [for_fold].
  - apply quiet_pure, pure_ret.
  - apply quiet_bind; [apply Hbody | apply IH].
Qed.

Ltac solve_pure :=
  repeat first
    [ apply pure_ret | apply pure_getitem | apply pure_iter | apply pure_lift
    | apply pure_for_fold; intros | apply pure_bind; [|intros] ].

Ltac solve_quiet :=
  repeat first
    [ apply quiet_pop
    | apply quiet_pure; first [apply pure_ret | apply pure_getitem | apply pure_iter
                              | apply pure_lift]
    | apply quiet_for_fold; intros | apply quiet_bind; [|intros] ].

(** ** Nested projection reads only *)

Lemma nested_projection_reads_only {W} (self : store) (result : value) (top_k : Z) :
  pure (extract_paragraphs_nested (W := W) self result top_k).
Proof.
  unfold extract_paragraphs_nested, nested_pairs, sort_by_score,
    extract_paragraphs_nested_hit.
  solve_pure.
Qed.

(** X4: the nested projection never changes the state: whatever the result
    it is given and whether it returns or raises, the objects of the store,
    the request trace and the log are as before.  (The flat projection, by
    contrast, pops the text field from the source of every hit.) *)
Theorem extract_paragraphs_nested_pure :
  forall (W : Type) (self : store) (result : value) (top_k : Z) (s : state W),
    (extract_paragraphs_nested self result top_k s).2 = s.
Proof.
  intros W self result top_k s. apply nested_projection_reads_only.
Qed.

(** X5: with [top_k = 0] the nested projection never returns: the selection
    is empty, so the final unpacking raises even when there are hits. *)
Theorem extract_paragraphs_nested_top_0 :
  forall (W : Type) (self : store) (result : value) (s : state W),
    exists (e : exn) (s' : state W),
      extract_paragraphs_nested self result 0 s = (Raise e, s').
Proof.
  intros W self result s. unfold extract_paragraphs_nested.
  unfold mbind at 1, M_bind at 1.
  destruct (nested_pairs self result s) as [[pm|e] s1]; [|eauto].
  unfold mbind at 1, M_bind at 1.
  destruct (sort_by_score (combine pm.1 pm.2) s1) as [[zipped|e] s2]; [|eauto].
  exists ValueError, s2. reflexivity.
Qed.

(** ** Requests of the query operations *)

(** X6: an embedding query on a store without an embedding field (none, or
    the empty string) raises [RuntimeError] before anything else happens: no
    request is sent and nothing is logged. *)
Theorem query_by_embedding_requires_field :
  forall (W : Type) (client : client_t W) (self : store) (query_emb : value) (top_k : Z)
         (ids : value) (s : state W),
    embedding_field self = None \/ embedding_field self = Some "" ->
    query_by_embedding client self query_emb top_k ids s
    = (Raise (RuntimeError embedding_field_error), s).
Proof.
  intros W client self query_emb top_k ids s H. unfold query_by_embedding.
  destruct H as [-> | ->]; reflexivity.
Qed.

Lemma query_by_embedding_requires_field_witness :
  query_by_embedding (stub_client (search_response [])) (flat_store (Some ""))
    (VList [VFloat 1]) 10 VNone empty_state
  = (Raise (RuntimeError embedding_field_error), empty_state).
Proof. apply query_by_embedding_requires_field. now right. Defined.

Lemma extract_paragraphs_quiet {W} (self : store) (result : value) :
  quiet (extract_paragraphs (W := W) self result).
Proof. unfold extract_paragraphs, extract_paragraphs_hit. solve_quiet. Qed.

Lemma extract_paragraphs_nested_quiet {W} (self : store) (result : value) (top_k : Z) :
  quiet (extract_paragraphs_nested (W := W) self result top_k).
Proof. apply quiet_pure, nested_projection_reads_only. Qed.

(** X7: [query] sends exactly one search request, for the body that
    [prepare_query] builds, and writes exactly one debug record, whatever
    the client answers and whether the projection of the answer returns or
    raises. *)
Theorem query_one_request :
  forall (W : Type) (client : client_t W) (self : store) (query_text : value) (top_k : Z)
         (ids : value) (s : state W),
    let body := prepare_query (st_heap s) self query_text top_k ids in
    let s' := (query client self query_text top_k ids s).2 in
    st_calls s'
    = st_calls s ++ [(Search (index self) body None,
                      (client (Search (index self) body None) (st_heap s) (st_world s)).1.1)]
    /\ st_log s' = st_log s ++ [LogRecord DEBUG "Retriever query: " None body]
    /\ st_world s' = (client (Search (index self) body None) (st_heap s) (st_world s)).2.
Proof.
  intros W client self query_text top_k ids s body s'. subst s'.
  remember (query client self query_text top_k ids s) as out eqn:E.
  unfold query in E.
  unfold mbind at 1, M_bind at 1, get_heap in E. fold body in E.
  unfold mbind at 1, M_bind at 1, logger in E. cbn [st_heap st_world st_calls st_log] in E.
  unfold mbind at 1, M_bind at 1, client_call in E.
  cbn [st_heap st_world st_calls st_log] in E.
  destruct (client (Search (index self) body None) (st_heap s) (st_world s))
    as [[[response|e] h1] w1]; cbn [fst snd]; [|subst out; auto].
  match type of E with _ = ?m ?s1 =>
    assert (Hq : quiet m); [|destruct (Hq s1) as (Hw & Hc & Hl)] end.
  { solve_quiet. destruct (is_nested self);
      [apply extract_paragraphs_nested_quiet | apply extract_paragraphs_quiet]. }
  rewrite <- E in Hw, Hc, Hl. cbn [st_world st_calls st_log] in *. auto.
Qed.



(** ** Flat projection *)

Lemma extract_paragraphs_steps {W} (self : store) (hits : list value) (s : state W)
    (paragraphs metas : list value) (s' : state W) :
  extract_paragraphs self (VList hits) s = (Ok (paragraphs, metas), s') ->
  exists pms : list (value * value),
    steps (extract_paragraphs_hit self) hits pms s s'
    /\ paragraphs = map fst pms /\ metas = map snd pms.
Proof.
  intros H. unfold extract_paragraphs in H.
  apply bind_inv in H as (l & s1 & Hit & H). unfold iter in Hit. cbn in Hit.
  injection Hit as <- <-.
  apply for_fold_steps in H as (pms & Hsteps & [= -> ->]). eauto.
Qed.

(** X9: a flat projection that returns gives one text and one metadata
    record per hit, in the order of the hits: the text is the text field of
    the hit's source; the record has the hit's id and its score as they are
    (no re-ranking, no offset), the docId and name of the source, and the
    source object under [custom_meta]. *)
Theorem extract_paragraphs_in_order :
  forall (W : Type) (self : store) (hits : list value) (s : state W)
         (paragraphs metas : list value) (s' : state W),
    extract_paragraphs self (VList hits) s = (Ok (paragraphs, metas), s') ->
    length paragraphs = length hits
    /\ length metas = length hits
    /\ Forall2 (projects (st_heap s) self) hits (combine paragraphs metas).
Proof.
  intros W self hits s paragraphs metas s' H.
  apply extract_paragraphs_steps in H as (pms & Hsteps & -> & ->).
  apply (steps_drops (eq (text_field self))) in Hsteps as [_ Hall];
    [|apply extract_paragraphs_hit_drops].
  rewrite combine_fst_snd, !length_map.
  pose proof (Forall2_length _ _ _ Hall) as Hlen. repeat split; try congruence.
  eapply Forall2_impl; [exact Hall|]. cbn beta.
  intros hit [t m] (si & si' & Hpre & Hbody & _).
  pose proof (extract_paragraphs_hit_drops _ _ _ _ _ Hbody) as Hstep.
  apply extract_paragraphs_hit_inv in Hbody
    as (r & pid & did & dn & sc & Hsrc & Ht & _ & _ & Hpid & Hdid & Hdn & Hsc & ->).
  assert (Hback : forall obj k v, py_getitem (st_heap si') obj k = Ok v ->
                                  py_getitem (st_heap s) obj k = Ok v).
  { intros obj k v Hv. eapply drops_getitem_ok; [exact Hpre|].
    eapply drops_getitem_ok; [exact Hstep | exact Hv]. }
  assert (Hfield : forall k v, py_getitem (st_heap s) (VRef r) k = Ok v ->
                               dict_get k (deref (st_heap s) r) = Some v).
  { intros k v. cbn [py_getitem]. destruct (dict_get k (deref (st_heap s) r)); congruence. }
  exists r, pid, did, dn, sc. cbn [fst snd]. repeat split; auto.
  - eapply drops_getitem_ok; eassumption.
  - apply Hfield. eapply drops_getitem_ok; [exact Hpre|]. cbn [py_getitem]. now rewrite Ht.
Qed.

Lemma extract_paragraphs_in_order_witness :
  exists tm : value * value,
    projects (st_heap one_hit.2) (flat_store None) (VRef 1%nat) tm
    /\ tm.1 = VStr "some text".
Proof.
  edestruct (extract_paragraphs_in_order unit (flat_store None) [VRef 1%nat] one_hit.2)
    as (_ & _ & Hall).
  - vm_compute. reflexivity.
  - apply Forall2_cons_1 in Hall as [Hhit _]. eexists. split; [exact Hhit|]. reflexivity.
Defined.

Lemma steps_failure {W} (body : value -> M W (value * value)) (good : list value)
    (pms : list (value * value)) (s s1 : state W) :
  steps body good pms s s1 ->
  forall (bad : value) (rest : list value) (e : exn) (s2 : state W)
         (acc : list value * list value),
    body bad s1 = (Raise e, s2) ->
    for_fold (good ++ bad :: rest) acc (fun acc hit =>
      pm ← body hit; mret (acc.1 ++ [pm.1], acc.2 ++ [pm.2])) s
    = (Raise e, s2).
Proof.
  induction 1 as [s|hit hits pm pms s s1 s' Hrun _ IH]; intros bad rest e s2 acc Hbad;
    cbn [app for_fold].
  - now apply bind_raise, bind_raise.
  - rewrite (bind_ok _ _ _ _ _ (bind_ok _ _ _ _ _ Hrun)).
    unfold mret at 1, M_ret at 1. now apply IH.
Qed.

(** X10: the flat projection stops at the first hit whose source has no
    text field: it raises [KeyError] for that field and returns nothing,
    the later hits are untouched, and the hits before it have already lost
    their text field. *)
Theorem extract_paragraphs_partial_mutation :
  forall (W : Type) (self : store) (good : list value) (pms : list (value * value))
         (bad : value) (rest : list value) (r : loc) (s s1 : state W),
    steps (extract_paragraphs_hit self) good pms s s1 ->
    py_getitem (st_heap s1) bad "_source" = Ok (VRef r) ->
    dict_get (text_field self) (deref (st_heap s1) r) = None ->
    extract_paragraphs self (VList (good ++ bad :: rest)) s
    = (Raise (KeyError (text_field self)), s1)
    /\ Forall (fun hit => exists r0 : loc,
                 py_getitem (st_heap s) hit "_source" = Ok (VRef r0)
                 /\ dict_get (text_field self) (deref (st_heap s1) r0) = None) good.
Proof.
  intros W self good pms bad rest r s s1 Hsteps Hsrc Hmissing. split.
  - unfold extract_paragraphs. unfold mbind at 1, M_bind at 1, iter. cbn [py_iter].
    eapply steps_failure; [exact Hsteps|].
    unfold extract_paragraphs_hit. step_getitem Hsrc.
    apply bind_raise. now apply pop_missing.
  - apply (steps_drops (eq (text_field self))) in Hsteps as [_ Hall];
      [|apply extract_paragraphs_hit_drops].
    induction Hall as [|hit [t m] hits pms' (si & si' & Hpre & Hbody & Hpost) _ IH];
      constructor; [|exact IH].
    apply extract_paragraphs_hit_inv in Hbody
      as (r0 & pid & did & dn & sc & Hsrc0 & _ & -> & _).
    cbn [st_heap] in Hpost. exists r0. split.
    + eapply drops_getitem_ok; eassumption.
    + eapply drops_none; [exact Hpost|]. now rewrite deref_insert, dict_get_del_same.
Qed.

Lemma extract_paragraphs_partial_mutation_witness :
  exists s1 : state unit,
    extract_paragraphs (flat_store None) (VList [VRef 1%nat; VRef 3%nat]) two_hits.2
    = (Raise (KeyError "text"), s1)
    /\ deref (st_heap two_hits.2) 0%nat = document "some text" "doc" "d1"
    /\ deref (st_heap s1) 0%nat = [("name", VStr "doc"); ("document_id", VStr "d1")].
Proof.
  eexists. split; [|split; [reflexivity|]].
  - refine (proj1 (extract_paragraphs_partial_mutation unit (flat_store None)
                     [VRef 1%nat] _ (VRef 3%nat) [] 2%nat two_hits.2 _ _ _ _)).
    + econstructor; [vm_compute; reflexivity | constructor].
    + vm_compute. reflexivity.
    + vm_compute. reflexivity.
  - vm_compute. reflexivity.
Defined.

(** ** Shape of the query bodies *)

(** X11: the body of a text query always asks for [top_k] hits.  For a
    nested store the query clause is a [nested] clause on the nested path
    that asks for inner hits, and the query inside it is exactly the query
    clause the same store would send without nesting. *)
Theorem prepare_query_nested_wrapper :
  forall (h : heap) (self : store) (query_text : value) (top_k : Z) (ids : value),
    py_getitem h (prepare_query h self query_text top_k ids) "size" = Ok (VInt top_k)
    /\ (is_nested self = true ->
        py_path h (prepare_query h self query_text top_k ids) ["query"; "nested"; "path"]
        = Ok (VStr (nested_path self))
        /\ py_path h (prepare_query h self query_text top_k ids)
             ["query"; "nested"; "inner_hits"] = Ok (VDict [])
        /\ py_path h (prepare_query h self query_text top_k ids)
             ["query"; "nested"; "query"]
           = py_path h (prepare_query h (unnested self) query_text top_k ids) ["query"]).
Proof.
  intros h self query_text top_k ids. unfold prepare_query, unnested. cbn [is_nested
    search_fields excluded_meta_data nested_path].
  split.
  - destruct (truthy h ids), (is_nested self), (truthy h (excluded_meta_data self));
      reflexivity.
  - intros ->.
    destruct (truthy h ids), (truthy h (excluded_meta_data self)); repeat split.
Qed.

Lemma prepare_query_nested_wrapper_witness :
  py_path ∅ (prepare_query ∅ nested_store (VStr "q") 5 VNone) ["query"; "nested"; "path"]
  = Ok (VStr "paragraphs").
Proof.
  exact (proj1 (proj2 (prepare_query_nested_wrapper ∅ nested_store (VStr "q") 5 VNone)
                  eq_refl)).
Defined.

(** X12: both query bodies carry a [_source] clause exactly when the store
    has excluded metadata fields, and the clause then excludes those
    fields; without them the bodies have no [_source] key. *)
Theorem query_bodies_source_excludes :
  forall (h : heap) (self : store) (v : value) (top_k : Z) (ids : value),
    let text_body := prepare_query h self v top_k ids in
    let embedding_body := query_by_embedding_body h self v top_k ids in
    (truthy h (excluded_meta_data self) = true ->
     py_path h text_body ["_source"; "excludes"] = Ok (excluded_meta_data self)
     /\ py_path h embedding_body ["_source"; "excludes"] = Ok (excluded_meta_data self))
    /\ (truthy h (excluded_meta_data self) = false ->
        py_getitem h text_body "_source" = Raise (KeyError "_source")
        /\ py_getitem h embedding_body "_source" = Raise (KeyError "_source")).
Proof.
  intros h self v top_k ids. unfold prepare_query, query_by_embedding_body.
  split; intros ->; destruct (truthy h ids), (is_nested self); split; reflexivity.
Qed.

Lemma query_bodies_source_excludes_witness :
  py_getitem ∅ (prepare_query ∅ (flat_store None) (VStr "q") 5 VNone) "_source"
  = Raise (KeyError "_source").
Proof.
  exact (proj1 (proj2 (query_bodies_source_excludes ∅ (flat_store None) (VStr "q") 5 VNone)
                  eq_refl)).
Defined.

(** ** Ids by tags *)

(** X13: for a tag mapping with items [l], [get_document_ids_by_tags] sends
    one bool query whose [must] list has one terms clause per tag, in the
    order of the mapping, asks for up to 10000 hits, and returns the ids of
    the hits of the answer in their order. *)
Theorem get_document_ids_by_tags_request :
  forall (W : Type) (client : client_t W) (self : store) (tags : value) (s : state W)
         (l : list (string * value)) (response : value) (h' : heap) (w' : W)
         (hits ids : list value),
    py_items (st_heap s) tags = Ok l ->
    client (Search (index self) (tags_query l) (Some 10000)) (st_heap s) (st_world s)
    = (Ok response, h', w') ->
    py_path h' response ["hits"; "hits"] = Ok (VList hits) ->
    Forall2 (fun hit i => py_getitem h' hit "_id" = Ok i) hits ids ->
    exists s' : state W,
      get_document_ids_by_tags client self tags s = (Ok ids, s')
      /\ st_calls s'
         = st_calls s ++ [(Search (index self) (tags_query l) (Some 10000), Ok response)].
Proof.
  intros W client self tags s l response h' w' hits ids Htags Hcall Hpath Hids.
  unfold get_document_ids_by_tags.
  unfold mbind at 1, M_bind at 1, items. rewrite Htags.
  cbn [dict_lit fold_left dict_set fst snd].
  change (VDict [("query", VDict [("bool", VDict [("must", VList (map
            (fun kv => VDict [("terms", VDict [(kv.1, kv.2)])]) l))])])])
    with (tags_query l).
  unfold mbind at 1, M_bind at 1, logger.
  unfold mbind at 1, M_bind at 1, client_call. cbn [st_heap st_world st_calls st_log].
  rewrite Hcall. cbn [py_path] in Hpath.
  destruct (py_getitem h' response "hits") as [v|e] eqn:H1; [|discriminate].
  destruct (py_getitem h' v "hits") as [v'|e] eqn:H2; [|discriminate].
  injection Hpath as ->.
  match goal with |- context [(_ ≫= _) ?s1] => set (s1' := s1) end.
  change h' with (st_heap s1') in H1, H2, Hids.
  step_getitem H1. step_getitem H2.
  unfold mbind at 1, M_bind at 1, iter. cbn [py_iter].
  exists s1'. split; [|reflexivity].
  now rewrite (collect_ids (st_heap s1') hits ids Hids [] s1' eq_refl).
Qed.

Lemma get_document_ids_by_tags_request_witness :
  fst (get_document_ids_by_tags
         (stub_client (search_response [flat_hit "p1" 1 (document "a" "A" "1")]))
         (flat_store None)
         (VDict [("category", VList [VStr "news"]); ("year", VList [VInt 2020])])
         empty_state)
  = Ok [VStr "p1"].
Proof.
  edestruct (get_document_ids_by_tags_request unit
    (stub_client (search_response [flat_hit "p1" 1 (document "a" "A" "1")]))
    (flat_store None)
    (VDict [("category", VList [VStr "news"]); ("year", VList [VInt 2020])])
    empty_state _ _ _ _ [VRef 1%nat] [VStr "p1"] eq_refl eq_refl eq_refl)
    as (s' & Hrun & _).
  - repeat constructor.
  - now rewrite Hrun.
Defined.

(** X14: tags that are not a mapping ([None], a list, a string, a number)
    make [get_document_ids_by_tags] raise [AttributeError] before any
    request is sent or anything is logged. *)
Theorem get_document_ids_by_tags_not_a_mapping :
  forall (W : Type) (client : client_t W) (self : store) (tags : value) (s : state W),
    (forall d, tags <> VDict d) -> (forall r, tags <> VRef r) ->
    get_document_ids_by_tags client self tags s = (Raise AttributeError, s).
Proof.
  intros W client self tags s Hd Hr. unfold get_document_ids_by_tags.
  unfold mbind at 1, M_bind at 1, items.
  destruct tags; try reflexivity; [now destruct (Hd d) | now destruct (Hr r)].
Qed.

Lemma get_document_ids_by_tags_not_a_mapping_witness :
  get_document_ids_by_tags (stub_client (search_response [])) (flat_store None) VNone
    empty_state
  = (Raise AttributeError, empty_state).
Proof. apply get_document_ids_by_tags_not_a_mapping; discriminate. Defined.

(** ** Construction *)

Lemma init_run {W} (client : client_t W) (idx : string) (fields : value)
    (text_path name_path doc_id_path : string) (tags : value) (emb : option string)
    (dim mapping excluded : value) (s : state W) :
  init client idx fields text_path name_path doc_id_path tags emb dim mapping excluded s
  = let c := IndicesCreate idx 400
               (init_custom_mapping (st_heap s) text_path name_path doc_id_path emb dim
                  mapping) in
    let '(r, h1, w1) := client c (st_heap s) (st_world s) in
    let s1 := State h1 w1 (st_calls s ++ [(c, r)]) (st_log s) in
    match r with
    | Raise e => (Raise e, s1)
    | Ok _ =>
        if (has_dot text_path || has_dot doc_id_path || has_dot name_path)
           && negb (bool_decide (path_prefix text_path = path_prefix doc_id_path)
                    && bool_decide (path_prefix doc_id_path = path_prefix name_path))
        then (Raise (Exception nested_path_error), s1)
        else (Ok (Store idx match fields with VStr f => VList [VStr f] | _ => fields end
                    tags emb excluded (has_dot text_path)
                    (if has_dot text_path then join_dot (path_prefix text_path) else "")
                    (path_leaf text_path) (path_leaf name_path) (path_leaf doc_id_path)),
              s1)
    end.
Proof.
  unfold init, client_call, mbind, M_bind, mret, M_ret, get_heap, raise.
  cbv beta iota zeta.
  destruct (client _ (st_heap s) (st_world s)) as [[[v|e] h1] w1]; [|reflexivity].
  cbv beta iota. unfold path_prefix, path_leaf, split_dot.
  rewrite !split_dot_aux_length, !py_slice_to_minus_one.
  match goal with |- context [if ?c then _ else _] => destruct c end; reflexivity.
Qed.

(** X15: [__init__] sends exactly one request, the creation of the index
    with its mapping and [ignore=400], and logs nothing.  The request is
    sent before the field paths are checked, so it has been sent also when
    the construction then fails on mismatched paths. *)
Theorem init_creates_index_first :
  forall (W : Type) (client : client_t W) (idx : string) (fields : value)
         (text_path name_path doc_id_path : string) (tags : value) (emb : option string)
         (dim mapping excluded : value) (s : state W),
    let c := IndicesCreate idx 400
               (init_custom_mapping (st_heap s) text_path name_path doc_id_path emb dim
                  mapping) in
    let s' := (init client idx fields text_path name_path doc_id_path tags emb dim mapping
                 excluded s).2 in
    st_calls s' = st_calls s ++ [(c, (client c (st_heap s) (st_world s)).1.1)]
    /\ st_log s' = st_log s.
Proof.
  intros W client idx fields text_path name_path doc_id_path tags emb dim mapping excluded
    s c s'. subst s'. rewrite init_run. subst c. cbv zeta.
  destruct (client _ (st_heap s) (st_world s)) as [[[v|e] h1] w1]; cbn [fst snd];
    [|split; reflexivity].
  match goal with |- context [if ?b then _ else _] => destruct b end; split; reflexivity.
Qed.

Lemma join_dot_snoc (l : list string) (x : string) :
  l <> [] -> join_dot (l ++ [x]) = dotted (join_dot l) x.
Proof.
  unfold dotted. induction l as [|a [|b l] IH]; intros Hne; [contradiction|reflexivity|].
  change (join_dot ((a :: b :: l) ++ [x]))
    with (String.append a (String dot (join_dot ((b :: l) ++ [x])))).
  rewrite IH by discriminate.
  change (join_dot (a :: b :: l)) with (String.append a (String dot (join_dot (b :: l)))).
  now rewrite append_assoc, append_cons.
Qed.

Lemma path_rejoin (p : string) :
  has_dot p = true -> p = dotted (join_dot (path_prefix p)) (path_leaf p).
Proof.
  intros Hdot. unfold path_prefix, path_leaf.
  assert (Hlen : (1 <? length (split_dot p))%nat = true)
    by (unfold split_dot; now rewrite split_dot_aux_length).
  assert (Hne : split_dot p <> []) by apply split_dot_aux_nonempty.
  rewrite <- join_dot_snoc.
  - now rewrite <- (app_removelast_last "" Hne), join_split_dot.
  - intros E. apply removelast_nil_iff in E. congruence.
Qed.

(** X16: the field paths can be read back from a nested store: each of the
    three paths given to [__init__] is the nested path, the separator and
    the field name the store keeps. *)
Theorem init_nested_paths_rejoin :
  forall (W : Type) (client : client_t W) (idx : string) (fields : value)
         (text_path name_path doc_id_path : string) (tags : value) (emb : option string)
         (dim mapping excluded : value) (s s' : state W) (self : store),
    init client idx fields text_path name_path doc_id_path tags emb dim mapping excluded s
    = (Ok self, s') ->
    is_nested self = true ->
    text_path = dotted (nested_path self) (text_field self)
    /\ name_path = dotted (nested_path self) (name_field self)
    /\ doc_id_path = dotted (nested_path self) (doc_id_field self).
Proof.
  intros W client idx fields text_path name_path doc_id_path tags emb dim mapping excluded
    s s' self Hinit Hnested.
  rewrite init_run in Hinit. cbv zeta in Hinit.
  destruct (client _ (st_heap s) (st_world s)) as [[[v|e] h1] w1]; [|discriminate].
  destruct (bool_decide_reflect (path_prefix text_path = path_prefix doc_id_path)) as [E1|];
    [|destruct (has_dot text_path), (has_dot doc_id_path), (has_dot name_path);
      cbn in Hinit; try discriminate; injection Hinit as <- _; discriminate].
  destruct (bool_decide_reflect (path_prefix doc_id_path = path_prefix name_path)) as [E2|];
    [|destruct (has_dot text_path), (has_dot doc_id_path), (has_dot name_path);
      cbn in Hinit; try discriminate; injection Hinit as <- _; discriminate].
  rewrite andb_false_r in Hinit. injection Hinit as <- _. cbn in Hnested |- *.
  rewrite Hnested.
  assert (Hdots : forall p, path_prefix p = path_prefix text_path -> has_dot p = true).
  { intros p Hp. destruct (has_dot p) eqn:Hd; [reflexivity|]. exfalso.
    assert (Hnil : path_prefix p = []).
    { apply removelast_nil_iff. unfold split_dot. now rewrite split_dot_aux_length. }
    rewrite Hp in Hnil. apply removelast_nil_iff in Hnil.
    unfold split_dot in Hnil. rewrite split_dot_aux_length in Hnil. congruence. }
  split; [now apply path_rejoin|]. split.
  - replace (path_prefix text_path) with (path_prefix name_path) by congruence.
    apply path_rejoin, Hdots. congruence.
  - rewrite E1. apply path_rejoin, Hdots. congruence.
Qed.

Lemma init_nested_paths_rejoin_witness :
  "paragraphs.text" = dotted "paragraphs" "text".
Proof.
  edestruct (init_nested_paths_rejoin unit (stub_client VNone) "document" (VStr "text")
               "paragraphs.text" "paragraphs.name" "paragraphs.document_id" VNone None
               VNone VNone VNone empty_state) as (Ht & _ & _).
  - vm_compute. reflexivity.
  - reflexivity.
  - exact Ht.
Defined.

(** X17: a mapping given to [__init__] is sent as it is.  Without one, the
    mapping sent declares the text, name and docId paths as text
    properties (unless the embedding field has the same name) and, when an
    embedding field is set, declares it as a dense vector of the given
    dimension. *)
Theorem init_custom_mapping_properties :
  forall (h : heap) (text_path name_path doc_id_path : string) (emb : option string)
         (dim custom : value),
    let mapping := init_custom_mapping h text_path name_path doc_id_path emb dim custom in
    (truthy h custom = true -> mapping = custom)
    /\ (truthy h custom = false ->
        (forall f : string,
            f = text_path \/ f = name_path \/ f = doc_id_path ->
            truthy_field emb = false \/ emb <> Some f ->
            py_path h mapping ["mappings"; "properties"; f] = Ok text_mapping)
        /\ (forall e : string,
            emb = Some e -> e <> "" ->
            py_path h mapping ["mappings"; "properties"; e] = Ok (vector_mapping dim))).
Proof.
  intros h text_path name_path doc_id_path emb dim custom mapping. subst mapping.
  unfold init_custom_mapping. split; intros ->; [reflexivity|]. cbn [negb]. cbv zeta.
  change (VDict (dict_lit [("type", VStr "text")])) with text_mapping.
  change (VDict (dict_lit [("type", VStr "dense_vector"); ("dims", dim)]))
    with (vector_mapping dim).
  set (base := dict_lit [(name_path, text_mapping); (text_path, text_mapping);
                         (doc_id_path, text_mapping)]).
  assert (Hfields : forall f : string,
    f = text_path \/ f = name_path \/ f = doc_id_path ->
    dict_get f base = Some text_mapping).
  { intros f Hf. subst base. cbn [dict_lit fold_left fst snd]. rewrite !dict_get_set.
    destruct Hf as [->|[->| ->]]; rewrite ?String.eqb_refl;
      repeat match goal with |- context [String.eqb ?a ?b] => destruct (String.eqb a b) end;
      reflexivity. }
  assert (Hpath : forall (props : dict) (f : string),
    py_path h (VDict (dict_lit [("mappings", VDict (dict_lit [("properties", VDict props)]))]))
      ["mappings"; "properties"; f]
    = match dict_get f props with Some v => Ok v | None => Raise (KeyError f) end).
  { intros props f. cbn. now destruct (dict_get f props). }
  split.
  - intros f Hf Hemb. rewrite Hpath.
    destruct emb as [e|]; [|now rewrite Hfields].
    destruct (truthy_field (Some e)) eqn:Ht; [|now rewrite Hfields].
    rewrite dict_get_set. destruct (String.eqb_spec f e) as [->|_].
    + destruct Hemb as [?|Hemb]; [discriminate | now destruct Hemb].
    + now rewrite Hfields.
  - intros e -> He. rewrite Hpath.
    assert (Ht : truthy_field (Some e) = true).
    { cbn. destruct (String.eqb_spec e ""); [contradiction | reflexivity]. }
    now rewrite Ht, dict_get_set, String.eqb_refl.
Qed.

Lemma init_custom_mapping_properties_witness :
  py_path ∅ (init_custom_mapping ∅ "text" "name" "document_id" (Some "emb") (VInt 768) VNone)
    ["mappings"; "properties"; "emb"]
  = Ok (vector_mapping (VInt 768)).
Proof.
  refine (proj2 (proj2 (init_custom_mapping_properties ∅ "text" "name" "document_id"
                          (Some "emb") (VInt 768) VNone) eq_refl) "emb" eq_refl _).
  discriminate.
Defined.

(** ** Metadata of an embedding query *)

Lemma dict_get_not_in (k : string) (d : dict) :
  ~ In k (map fst d) -> dict_get k d = None.
Proof.
  induction d as [|[k0 v0] d IH]; cbn [map fst dict_get In]; [reflexivity|].
  intros H. destruct (String.eqb_spec k k0) as [->|_]; [tauto|]. apply IH. tauto.
Qed.

Lemma dict_del_keys (k x : string) (d : dict) :
  In x (map fst (dict_del k d)) -> In x (map fst d).
Proof.
  induction d as [|[k0 v0] d IH]; cbn [dict_del map fst In]; [tauto|].
  destruct (String.eqb k k0); cbn [map fst In]; tauto.
Qed.

Lemma dict_del_nodup (k : string) (d : dict) :
  NoDup (map fst d) -> NoDup (map fst (dict_del k d)).
Proof.
  induction d as [|[k0 v0] d IH]; cbn [dict_del map fst]; [tauto|].
  intros Hnd. apply NoDup_cons in Hnd as [Hin Hnd].
  destruct (String.eqb k k0); cbn [map fst]; [now apply IH|].
  apply NoDup_cons. split; [|now apply IH]. intros Hx. apply Hin.
  apply list_elem_of_In. eapply dict_del_keys. apply list_elem_of_In. exact Hx.
Qed.

(** [update] gives the keys of its argument the argument's values. *)
Lemma dict_get_update_some (k : string) (v : value) (other d : dict) :
  NoDup (map fst other) -> dict_get k other = Some v ->
  dict_get k (dict_update d other) = Some v.
Proof.
  unfold dict_update. revert d.
  induction other as [|[k0 v0] other IH]; intros d Hnd H; cbn [fold_left fst snd];
    [discriminate|].
  cbn [map fst] in Hnd. apply NoDup_cons in Hnd as [Hin Hnd]. cbn [dict_get] in H.
  destruct (String.eqb_spec k k0) as [->|Hne].
  - injection H as ->.
    pose proof (dict_get_update_none k0 other (dict_set k0 v d)) as Hkeep.
    unfold dict_update in Hkeep. rewrite Hkeep.
    + now rewrite dict_get_set, String.eqb_refl.
    + apply dict_get_not_in. intros Hx. apply Hin. now apply list_elem_of_In.
  - now apply IH.
Qed.

(** X18: the metadata of an embedding hit carries every field that is left
    in the hit's source once text, docId and name are popped, under the
    field's own name and with its value, also when that name is one of
    [paragraph_id], [document_id], [document_name] and [score], whose value
    it then replaces. *)
Theorem embedding_metadata_merges_source :
  forall (W : Type) (self : store) (hit : value) (s : state W) (t m : value)
         (s' : state W) (r : loc),
    query_by_embedding_hit self hit s = (Ok (t, m), s') ->
    py_getitem (st_heap s) hit "_source" = Ok (VRef r) ->
    NoDup (map fst (deref (st_heap s) r)) ->
    forall (k : string) (v : value),
      dict_get k (remaining self (deref (st_heap s) r)) = Some v ->
      py_getitem (st_heap s') m k = Ok v.
Proof.
  intros W self hit s t m s' r Hrun Hsrc Hnd k v Hk.
  apply query_by_embedding_hit_inv in Hrun
    as (r' & pid & did & dn & sc & sc1 & Hsrc' & _ & Hleft & _ & _ & _ & _ & ->).
  assert (r' = r) as -> by congruence.
  cbn [py_getitem]. rewrite Hleft.
  rewrite (dict_get_update_some k v); [reflexivity| |exact Hk].
  unfold remaining. now do 3 apply dict_del_nodup.
Qed.

Lemma embedding_metadata_merges_source_witness :
  exists (t m : value) (s' : state unit),
    query_by_embedding_hit (flat_store (Some "emb")) (VRef 1%nat) tagged_hit.2
    = (Ok (t, m), s')
    /\ py_getitem (st_heap s') m "lang" = Ok (VStr "en").
Proof.
  eexists _, _, _. split; [vm_compute; reflexivity|].
  eapply (embedding_metadata_merges_source unit (flat_store (Some "emb")) (VRef 1%nat)
            tagged_hit.2 _ _ _ 0%nat).
  - vm_compute. reflexivity.
  - vm_compute. reflexivity.
  - vm_compute. repeat constructor; rewrite ?elem_of_cons, ?elem_of_nil;
      intros H; repeat destruct H as [H|H]; try discriminate H; exact H.
  - vm_compute. reflexivity.
Defined.

(** X19: an embedding query takes no account of the nested configuration:
    for a nested store it sends the request and projects the answer exactly
    as for the same store without a nested path (no nested clause, no inner
    hits). *)
Theorem query_by_embedding_ignores_nesting :
  forall (W : Type) (client : client_t W) (self : store) (query_emb : value) (top_k : Z)
         (ids : value) (s : state W),
    query_by_embedding client self query_emb top_k ids s
    = query_by_embedding client (unnested self) query_emb top_k ids s.
Proof. intros W client [] query_emb top_k ids s. reflexivity. Qed.

(** ** How many pairs the nested projection returns *)

Lemma extract_paragraphs_nested_run {W} (self : store) (hits : list value) (top_k : Z)
    (s : state W) (groups : list (list (value * value))) :
  Forall2 (emits_all (st_heap s) self) hits groups ->
  Forall (fun pm => float_key (score_of pm)) (concat groups) ->
  0 <= top_k ->
  extract_paragraphs_nested self (VList hits) top_k s
  = (unzip_pairs (firstn (Z.to_nat top_k)
                    (foldr (insert_desc score_of) [] (concat groups))), s).
Proof.
  intros Hemit Hfloat Hk. unfold extract_paragraphs_nested.
  rewrite (bind_ok _ _ _ _ _ (nested_pairs_run _ _ _ _ Hemit)). cbn [fst snd].
  rewrite combine_fst_snd.
  assert (Hscore : Forall (fun x => py_getitem (st_heap s) x.2 "score" = Ok (score_of x))
                     (concat groups)).
  { clear -Hemit. induction Hemit as [|hit pms hits groups Hpms _ IH]; cbn.
    - constructor.
    - apply Forall_app. split; [|exact IH].
      destruct Hpms as (inner & _ & Hinner). clear -Hinner.
      induction Hinner as [|ih pm inner pms Hpm _ IH]; constructor; [|exact IH].
      now apply emits_score in Hpm. }
  rewrite (bind_ok _ _ _ _ _ (sort_by_score_run _ _ Hscore Hfloat)).
  unfold py_slice_to, lift. now rewrite (proj2 (Z.leb_le 0 top_k)) by lia.
Qed.

(** X20: for a well-formed nested result with at least one inner hit and a
    positive [top_k], the nested projection returns as many texts as
    metadata records: [top_k] of them, or all the inner hits when there are
    fewer.  It never returns more than [top_k] pairs, although the backend
    was asked for [top_k] outer hits, each with its own inner hits. *)
Theorem extract_paragraphs_nested_length :
  forall (W : Type) (self : store) (hits : list value) (top_k : Z) (s : state W)
         (groups : list (list (value * value))),
    Forall2 (emits_all (st_heap s) self) hits groups ->
    Forall (fun pm => float_key (score_of pm)) (concat groups) ->
    concat groups <> [] ->
    0 < top_k ->
    exists paragraphs metas : list value,
      extract_paragraphs_nested self (VList hits) top_k s = (Ok (paragraphs, metas), s)
      /\ length paragraphs = Nat.min (Z.to_nat top_k) (length (concat groups))
      /\ length metas = length paragraphs.
Proof.
  intros W self hits top_k s groups Hemit Hfloat Hne Hk.
  rewrite (extract_paragraphs_nested_run _ _ _ _ _ Hemit Hfloat) by lia.
  pose proof (sort_desc_perm score_of (concat groups)) as Hperm.
  set (ranked := foldr (insert_desc score_of) [] (concat groups)) in *.
  assert (Hranked : ranked <> []).
  { intros E. apply Hne. apply Permutation_nil. now rewrite <- E. }
  exists (map fst (firstn (Z.to_nat top_k) ranked)),
         (map snd (firstn (Z.to_nat top_k) ranked)).
  split; [|split].
  - destruct ranked as [|x ranked']; [contradiction|].
    destruct (Z.to_nat top_k) as [|n] eqn:En; [lia|]. reflexivity.
  - rewrite length_map, length_take. now rewrite (Permutation_length Hperm).
  - now rewrite !length_map.
Qed.

Lemma extract_paragraphs_nested_length_witness :
  exists paragraphs metas : list value,
    extract_paragraphs_nested nested_store (VList [VRef 7%nat; VRef 13%nat]) 2 rerank_hits.2
    = (Ok (paragraphs, metas), rerank_hits.2)
    /\ length paragraphs = 2%nat /\ length metas = 2%nat.
Proof.
  destruct (extract_paragraphs_nested_length unit nested_store [VRef 7%nat; VRef 13%nat] 2
              rerank_hits.2 rerank_groups rerank_hits_emit rerank_groups_float)
    as (ps & ms & Hrun & Hp & Hm); [intros E; discriminate E | reflexivity |].
  exists ps, ms. split; [exact Hrun|]. split; [exact Hp | now rewrite Hm].
Defined.

(** ** Texts of an embedding query *)

(** X21: an embedding query that returns gives one text and one metadata
    record per hit of the answer, and the texts are the text fields of the
    hits' sources, in the order of the hits as the backend sent them. *)
Theorem query_by_embedding_in_order :
  forall (W : Type) (client : client_t W) (self : store) (query_emb : value) (top_k : Z)
         (ids : value) (s : state W) (response : value) (h0 : heap) (w0 : W)
         (hits paragraphs metas : list value) (s' : state W),
    client (Search (index self) (query_by_embedding_body (st_heap s) self query_emb top_k ids)
              None) (st_heap s) (st_world s) = (Ok response, h0, w0) ->
    py_path h0 response ["hits"; "hits"] = Ok (VList hits) ->
    query_by_embedding client self query_emb top_k ids s = (Ok (paragraphs, metas), s') ->
    length metas = length hits
    /\ Forall2 (fun hit text => exists r : loc,
                  py_getitem h0 hit "_source" = Ok (VRef r)
                  /\ dict_get (text_field self) (deref h0 r) = Some text)
               hits paragraphs.
Proof.
  intros W client self query_emb top_k ids s response h0 w0 hits paragraphs metas s'
    Hcall Hpath Hrun.
  destruct (query_by_embedding_inv _ _ _ _ _ _ _ _ _ _ _ _ _ Hcall Hpath Hrun)
    as (pms & s0 & <- & Hsteps & -> & ->).
  apply (steps_drops (popped self)) in Hsteps as [_ Hall].
  2:{ intros hit si pm si' Hbody. destruct pm as [t m].
      apply query_by_embedding_hit_inv in Hbody
        as (r & pid & did & dn & sc & sc1 & _ & _ & _ & Hd & _).
      exact Hd. }
  split.
  - rewrite length_map. symmetry. eapply Forall2_length; exact Hall.
  - apply Forall2_fmap_r. eapply Forall2_impl; [exact Hall|]. cbn beta.
    intros hit [t m] (si & si' & Hpre & Hbody & _).
    apply query_by_embedding_hit_inv in Hbody
      as (r & pid & did & dn & sc & sc1 & Hsrc & Ht & _).
    exists r. split; [eapply drops_getitem_ok; eassumption|]. cbn [fst].
    destruct (Hpre r (text_field self)) as [E|[_ E]]; congruence.
Qed.

Lemma query_by_embedding_in_order_witness :
  exists (paragraphs metas : list value) (s' : state unit),
    query_by_embedding (stub_client (scored_response (document "some text" "doc" "d1")))
      (flat_store (Some "emb")) (VList [VFloat 1]) 10 VNone empty_state
    = (Ok (paragraphs, metas), s')
    /\ length metas = 1%nat.
Proof.
  eexists _, _, _. split; [vm_compute; reflexivity|].
  refine (proj1 (query_by_embedding_in_order unit
    (stub_client (scored_response (document "some text" "doc" "d1")))
    (flat_store (Some "emb")) (VList [VFloat 1]) 10 VNone empty_state
    _ _ _ [VRef 1%nat] _ _ _ eq_refl eq_refl eq_refl)).
Defined.
